(** * Hytopia scene builder: region selection and export options

    A shallow embedding of

    - [RegionSelector.jsx] (the browser region-selection editor): the
      bounds-trimming effect and the horizontal drag-resize handler;
    - the bundled jMc2Obj exporter GUI: [None.addModel],
      [Settings.updateResourcePacks] and the option handling of
      [ExportWindow] ([updateEnabledSettings], [updateOptions],
      [loadSettings], [saveSettings], [runExport], the force-stop action).

    JavaScript numbers that hold block coordinates are modelled as [Z]
    (the handlers only ever build them with [Math.round], [Math.floor],
    [+] and [-]), the position of the mouse as a pair of rationals; NaN
    and the infinities are not modelled.  The trimming of lines 551-558
    rounds its sums as binary64 arithmetic does ([toBinary64]), which
    matters beyond the safe integers.  Java [int] values are [Z] as
    well, no arithmetic is done on them by the modelled methods.  The
    Java class library is a parameter ([Jdk]); module [Decimal] gives a
    concrete one to run the model. *)

From Stdlib Require Import ZArith QArith Qround Qminmax Lia Bool Ascii String.
From stdpp Require Import base option list strings pretty gmap.

Local Open Scope Z_scope.

(* ===================================================================== *)
(** * RegionSelector.jsx                                                  *)
(* ===================================================================== *)

Module RegionSelector.

(** [bounds] state, lines 379-386. *)
Record Bounds := mkBounds {
  minX : Z; minY : Z; minZ : Z;
  maxX : Z; maxY : Z; maxZ : Z
}.

(** [size], [center] and [dragStartCoords] are objects with fields x, y, z. *)
Record XYZ := mkXYZ { x : Z; y : Z; z : Z }.

(** [offsets] has fields x and z only. *)
Record Offsets := mkOffsets { off_x : Z; off_z : Z }.

(** The argument of [onRegionSelected]: [{...trimmedBounds, offsetX, offsetZ}]. *)
Record Region := mkRegion {
  region_bounds : Bounds; offsetX : Z; offsetZ : Z
}.

(** Field assignments [newBounds.minX = v] and the like. *)
Definition set_minX (v : Z) (b : Bounds) : Bounds :=
  mkBounds v (minY b) (minZ b) (maxX b) (maxY b) (maxZ b).
Definition set_maxX (v : Z) (b : Bounds) : Bounds :=
  mkBounds (minX b) (minY b) (minZ b) v (maxY b) (maxZ b).
Definition set_minZ (v : Z) (b : Bounds) : Bounds :=
  mkBounds (minX b) (minY b) v (maxX b) (maxY b) (maxZ b).
Definition set_maxZ (v : Z) (b : Bounds) : Bounds :=
  mkBounds (minX b) (minY b) (minZ b) (maxX b) (maxY b) v.

Definition Bounds_eqb (a b : Bounds) : bool :=
  (minX a =? minX b) && (minY a =? minY b) && (minZ a =? minZ b) &&
  (maxX a =? maxX b) && (maxY a =? maxY b) && (maxZ a =? maxZ b).

(** [Math.round]: the nearest integer, halves towards plus infinity. *)
Definition Math_round (q : Q) : Z := Qfloor (q + (1 # 2)).

(** [String.prototype.includes]. *)
Fixpoint includes (s sub : string) : bool :=
  String.prefix sub s ||
  match s with
  | EmptyString => false
  | String _ s' => includes s' sub
  end.

(** JavaScript truthiness of a value that is [null] or a string. *)
Definition truthy (o : option string) : bool :=
  match o with
  | None => false
  | Some s => negb (String.eqb s "")
  end.

(** JavaScript numbers are binary64 floating-point numbers.  Every
    integer up to 2^53 in magnitude is one of them; a larger integer is
    rounded to the nearest number with a significand of 53 bits, a tie
    going to the one whose significand is even.  [toBinary64] is that
    rounding on the integers (short of the overflow to [Infinity], which
    starts near 2^1024). *)
Definition toBinary64 (n : Z) : Z :=
  if Z.abs n <=? 2 ^ 53 then n
  else
    let ulp := 2 ^ (Z.log2 (Z.abs n) - 52) in
    let q := n / ulp in
    let r := n mod ulp in
    if 2 * r <? ulp then q * ulp
    else if ulp <? 2 * r then (q + 1) * ulp
    else if Z.even q then q * ulp else (q + 1) * ulp.

(** [a + b] and [a - b] on integer-valued numbers: the exact result,
    rounded. *)
Definition Number_add (a b : Z) : Z := toBinary64 (a + b).
Definition Number_sub (a b : Z) : Z := toBinary64 (a - b).

(** [Number.MAX_SAFE_INTEGER]. *)
Definition MAX_SAFE_INTEGER : Z := 2 ^ 53 - 1.

Section Limits.

(** The constants imported from [constants/terrain] (lines 2-8); that
    module is not part of the sources at hand, so they are parameters. *)
Variables MAX_IMPORT_SIZE_X MAX_IMPORT_SIZE_Y MAX_IMPORT_SIZE_Z : Z.

(** ** The trimming effect, lines 539-608 *)

Definition width (b : Bounds) : Z := maxX b - minX b + 1.
Definition height (b : Bounds) : Z := maxY b - minY b + 1.
Definition depth (b : Bounds) : Z := maxZ b - minZ b + 1.

(** Lines 544-546. *)
Definition computeIsValid (b : Bounds) : bool :=
  (0 <? width b) && (0 <? height b) && (0 <? depth b).

(** Lines 551-558.  [bounds.minX + MAX_IMPORT_SIZE_X - 1] is two
    operations on numbers, each rounded: the sum, then the difference. *)
Definition trimmedBounds (bounds : Bounds) : Bounds :=
  {| minX := minX bounds;
     minY := minY bounds;
     minZ := minZ bounds;
     maxX := Z.min (maxX bounds)
                   (Number_sub (Number_add (minX bounds) MAX_IMPORT_SIZE_X) 1);
     maxY := Z.min (maxY bounds)
                   (Number_sub (Number_add (minY bounds) MAX_IMPORT_SIZE_Y) 1);
     maxZ := Z.min (maxZ bounds)
                   (Number_sub (Number_add (minZ bounds) MAX_IMPORT_SIZE_Z) 1) |}.

(** The two refs the effect reads and writes, and what it calls. *)
Record EffectRefs := mkRefs {
  prevBoundsRef : option Bounds;
  prevOffsetsRef : option Offsets
}.

Record EffectResult := mkEffectResult {
  refs_after : EffectRefs;
  setSize_call : option XYZ;
  onRegionSelected_call : option Region
}.

(** The effect of lines 548-608. *)
Definition trimEffect (isValid : bool) (bounds : Bounds) (offsets : Offsets)
    (refs : EffectRefs) : EffectResult :=
  if negb isValid then mkEffectResult refs None None
  else
    let trimmed := trimmedBounds bounds in
    let prevOffsets := default (mkOffsets 0 0) (prevOffsetsRef refs) in
    let boundsChanged :=
      match prevBoundsRef refs with
      | None => true
      | Some prevBounds => negb (Bounds_eqb prevBounds trimmed)
      end in
    let offsetsChanged :=
      negb (off_x prevOffsets =? off_x offsets) ||
      negb (off_z prevOffsets =? off_z offsets) in
    if boundsChanged || offsetsChanged then
      mkEffectResult
        (mkRefs (Some trimmed) (Some offsets))
        (if negb (width trimmed =? width bounds) ||
            negb (height trimmed =? height bounds) ||
            negb (depth trimmed =? depth bounds)
         then Some (mkXYZ (width trimmed) (height trimmed) (depth trimmed))
         else None)
        (Some (mkRegion trimmed (off_x offsets) (off_z offsets)))
    else mkEffectResult refs None None.

(** ** The drag-resize handler, lines 797-901 *)

Record State := mkState {
  bounds : Bounds;
  size : XYZ;
  center : XYZ;
  dragOperation : option string;
  dragStartCoords : XYZ;
  dragStartBounds : option Bounds;
  isDragging : bool
}.

(** The [switch] of lines 829-858; a direction that matches no case
    leaves [newBounds] as it is. *)
Definition applyDrag (op : string) (start : Bounds) (deltaX deltaZ : Z)
    (newBounds : Bounds) : Bounds :=
  if String.eqb op "n" then set_minZ (minZ start + deltaZ) newBounds
  else if String.eqb op "s" then set_maxZ (maxZ start + deltaZ) newBounds
  else if String.eqb op "e" then set_maxX (maxX start + deltaX) newBounds
  else if String.eqb op "w" then set_minX (minX start + deltaX) newBounds
  else if String.eqb op "ne" then
    set_maxX (maxX start + deltaX) (set_minZ (minZ start + deltaZ) newBounds)
  else if String.eqb op "nw" then
    set_minX (minX start + deltaX) (set_minZ (minZ start + deltaZ) newBounds)
  else if String.eqb op "se" then
    set_maxX (maxX start + deltaX) (set_maxZ (maxZ start + deltaZ) newBounds)
  else if String.eqb op "sw" then
    set_minX (minX start + deltaX) (set_maxZ (maxZ start + deltaZ) newBounds)
  else newBounds.

(** Lines 860-873: keep the selection at least two blocks wide. *)
Definition enforceMinSize (op : string) (newBounds : Bounds) : Bounds :=
  let newBounds :=
    if minX newBounds >=? maxX newBounds then
      if includes op "w" then set_minX (maxX newBounds - 1) newBounds
      else set_maxX (minX newBounds + 1) newBounds
    else newBounds in
  if minZ newBounds >=? maxZ newBounds then
    if includes op "n" then set_minZ (maxZ newBounds - 1) newBounds
    else set_maxZ (minZ newBounds + 1) newBounds
  else newBounds.

(** Lines 875-893: clamp to the maximum import size; returns the bounds
    and the new horizontal sizes. *)
Definition enforceMaxSize (op : string) (newBounds : Bounds) : Bounds * (Z * Z) :=
  let sizeX := maxX newBounds - minX newBounds + 1 in
  let sizeZ := maxZ newBounds - minZ newBounds + 1 in
  let '(newBounds, sizeX) :=
    if sizeX >? MAX_IMPORT_SIZE_X then
      (if includes op "w"
       then set_minX (maxX newBounds - MAX_IMPORT_SIZE_X + 1) newBounds
       else set_maxX (minX newBounds + MAX_IMPORT_SIZE_X - 1) newBounds,
       MAX_IMPORT_SIZE_X)
    else (newBounds, sizeX) in
  let '(newBounds, sizeZ) :=
    if sizeZ >? MAX_IMPORT_SIZE_Z then
      (if includes op "n"
       then set_minZ (maxZ newBounds - MAX_IMPORT_SIZE_Z + 1) newBounds
       else set_maxZ (minZ newBounds + MAX_IMPORT_SIZE_Z - 1) newBounds,
       MAX_IMPORT_SIZE_Z)
    else (newBounds, sizeZ) in
  (newBounds, (sizeX, sizeZ)).

Definition setIsDragging (v : bool) (st : State) : State :=
  mkState (bounds st) (size st) (center st) (dragOperation st)
          (dragStartCoords st) (dragStartBounds st) v.

(** [handleDragMove], lines 813-901.  [point] is the result of
    [svgCoordinatesFromEvent(e)]: [None] for [null], otherwise the
    coordinates of the mouse in the SVG view box. *)
Definition handleDragMove (point : option (Q * Q)) (st : State) : State :=
  match dragOperation st, dragStartBounds st with
  | Some op, Some start =>
    if negb (truthy (Some op)) then st
    else
      let st := setIsDragging true st in
      match point with
      | None => st
      | Some (px, py) =>
        let currentX := Math_round px in
        let currentZ := Math_round py in
        let deltaX := currentX - x (dragStartCoords st) in
        let deltaZ := currentZ - z (dragStartCoords st) in
        let newBounds := applyDrag op start deltaX deltaZ (bounds st) in
        let newBounds := enforceMinSize op newBounds in
        let '(newBounds, (sizeX, sizeZ)) := enforceMaxSize op newBounds in
        let newSize := mkXYZ sizeX (y (size st)) sizeZ in
        let newCenter :=
          mkXYZ ((minX newBounds + maxX newBounds) `div` 2)
                (y (center st))
                ((minZ newBounds + maxZ newBounds) `div` 2) in
        mkState newBounds newSize newCenter (dragOperation st)
                (dragStartCoords st) (dragStartBounds st) (isDragging st)
      end
  | _, _ => st
  end.

(** A drag step is taken when none of the early returns of lines 814
    and 819 fires. *)
Definition dragStepTaken (point : option (Q * Q)) (st : State) : bool :=
  truthy (dragOperation st) && bool_decide (is_Some (dragStartBounds st)) &&
  bool_decide (is_Some point).

(** [handleDragStart], lines 797-811. *)
Definition handleDragStart (point : option (Q * Q)) (direction : string)
    (st : State) : State :=
  match point with
  | None => st
  | Some (px, py) =>
    mkState (bounds st) (size st) (center st) (Some direction)
            (mkXYZ (Math_round px) (y (dragStartCoords st)) (Math_round py))
            (Some (bounds st)) true
  end.

End Limits.

End RegionSelector.

(* ===================================================================== *)
(** * The bundled jMc2Obj exporter                                        *)
(* ===================================================================== *)

(** What the modelled methods use of the Java class library: the two
    floating-point types with their parsers and printers, and the integer
    parser and printer.  The methods never compute with a [float] or a
    [double]; they only parse, store, print and compare them with the
    choices of a control, so the types stay abstract. *)
Class Jdk := {
  JFloat : Type;
  JDouble : Type;
  Float_ofZ : Z -> JFloat;            (* the literal [1.0f] is [Float_ofZ 1] *)
  Double_ofZ : Z -> JDouble;          (* the literal [1.0] is [Double_ofZ 1] *)
  Float_parseFloat : string -> option JFloat;    (* [None]: NumberFormatException *)
  Double_parseDouble : string -> option JDouble; (* [None]: NumberFormatException *)
  Integer_parseInt : string -> option Z;         (* [None]: NumberFormatException *)
  Float_toString : JFloat -> string;
  Double_toString : JDouble -> string;
  Integer_toString : Z -> string
}.

(** [String.endsWith] and the [substring(0, length - 1)] of line 1111. *)
Definition endsWith (s suffix : string) : bool :=
  let n := String.length s in
  let k := String.length suffix in
  (k <=? n)%nat && String.eqb (String.substring (n - k) k s) suffix.

Definition dropLast (s : string) : string :=
  String.substring 0 (String.length s - 1) s.

(** A path names a [java.io.File]. *)
Definition File := string.

(** Calls to [Log] and to [JOptionPane], in the order they are made. *)
Inductive Event :=
  | Log_info (msg : string)
  | Log_error (msg : string)
  | Log_debug (msg : string)
  | showMessageDialog (messageKey : string).

(** ** org.jmc.models.None *)

Module None.
Section Model.

(** The classes of the parameters of [addModel]; they live in
    [org.jmc], [org.jmc.threading] and [org.jmc.registry], outside the
    sources at hand.  A [ChunkProcessor] is the mutable object a block
    model adds its faces to, [faces] reads the mesh output it holds. *)
Variables ChunkProcessor ThreadChunkDeligate BlockData NamespaceID Face : Type.
Variable faces : ChunkProcessor -> list Face.

(** [BlockModel.addModel] is a [void] method working on [obj]: it maps
    the state of the chunk processor before the call to its state after. *)
Definition BlockModel_addModel : Type :=
  ChunkProcessor -> ThreadChunkDeligate -> Z -> Z -> Z -> BlockData ->
  NamespaceID -> ChunkProcessor.

(** The override of lines 15-18: an empty body. *)
Definition addModel : BlockModel_addModel :=
  fun obj chunks x y z data biome => obj.

(** The faces a call adds: what the output holds after the call beyond
    what it held before, when the former extends the latter. *)
Definition addedFaces (before after : ChunkProcessor) : option (list Face) :=
  let n := length (faces before) in
  if bool_decide (n <= length (faces after))%nat
  then Some (drop n (faces after)) else None.

End Model.
End None.

(** ** org.jmc.gui.Settings *)

Module Settings.

(** The part of the window [updateResourcePacks] reads, and the result
    of [Filesystem.getMinecraftJar()] ([None] for [null]). *)
Record Window := mkWindow {
  listPacks : list File;             (* [listPacks.getList()] *)
  chckbxUsePackDefault : bool        (* [isSelected()] *)
}.

Record Result := mkResult {
  resourcePacks : list File;         (* [Options.resourcePacks] afterwards *)
  events : list Event;
  registriesReloaded : bool
}.

(** [resPacks.add(pack)]. *)
Definition add (pack : File) (resPacks : list File) : list File :=
  resPacks ++ [pack].

(** [updateResourcePacks], lines 570-594.  [resPacks] is the content of
    [Options.resourcePacks] before the call.  The version label that
    [updateMinecraftVerLbl] rewrites is not part of the model, and the
    log message shows the path of the jar where the source shows its
    name. *)
Definition updateResourcePacks (w : Window) (getMinecraftJar : option File)
    (reloadRegistries : bool) (resPacks : list File) : Result :=
  let resPacks := @nil File in                                  (* clear() *)
  let resPacks := foldl (fun acc pack => add pack acc) resPacks (listPacks w) in
  let '(resPacks, ev) :=
    if chckbxUsePackDefault w then
      match getMinecraftJar with
      | Some mc =>
        (add mc resPacks,
         [Log_info ("Using minecraft " ++ mc ++ " as default resource pack.")])
      | None =>
        (resPacks,
         [Log_info "No minecraft .jar found to use as default resource pack!"])
      end
    else (resPacks, []) in
  mkResult resPacks ev reloadRegistries.

End Settings.

(** ** org.jmc.gui.ExportWindow *)

Module ExportWindow.

(** *** Swing controls *)

(** The check boxes and radio buttons of the window (fields of lines
    60-121). *)
Inductive ToggleId :=
  | rdbtnNone | rdbtnCenter | rdbtnCustom
  | chckbxRenderWorldSides | chckbxRenderBiomes | chckbxRenderEntities
  | chckbxRenderUnknownBlocks | chckbxSeparateMat | chckbxSeparateMatOccl
  | chckbxSeparateChunk | chckbxRandBlockVariation | chckbxDoubleSidedFaces
  | chckbxSeparateBlock | chckbxOptimiseGeo | chckbxConvertOreTo
  | chckbxMergeVerticies | chckbxSeparateAlphaTexture
  | chckbxCombineAllTextures | chckbxSingleMat | chckbxUseLastSaveLoc
  | chckbxExportSeparateLight | chckbxExportNormalMaps
  | chckbxExportSpecularMaps | chckbxExportTextures
  | chckbxSeparateBlockOccl | chckbxObjUseGroup.

#[global] Instance ToggleId_eq_dec : EqDecision ToggleId.
Proof. solve_decision. Defined.

Record JToggleButton := mkToggle { isSelected : bool; isEnabled : bool }.

Record JTextField := mkTextField { getText : string; fieldEnabled : bool }.

(** A combo box that is not editable: its items and the selected item
    ([None] for [null]). *)
Record JComboBox := mkComboBox {
  items : list string;
  getSelectedItem : option string
}.

(** [SpinnerNumberModel(value, minimum, maximum, stepSize)]. *)
Record SpinnerNumberModel := mkSpinner {
  getValue : Z; minimum : Z; maximum : Z; stepSize : Z
}.

(** [JComboBox.setSelectedItem] on a combo box that is not editable: an
    object that is not among the items is rejected and the selection
    stays. *)
Definition setSelectedItem (anObject : string) (c : JComboBox) : JComboBox :=
  if bool_decide (anObject ∈ items c)
  then mkComboBox (items c) (Some anObject)
  else c.

(** [JSpinner.setValue] hands the value to [SpinnerNumberModel.setValue],
    which stores any number: as the class library documents it, no bounds
    checking is done there. *)
Definition setValue (v : Z) (m : SpinnerNumberModel) : SpinnerNumberModel :=
  mkSpinner v (minimum m) (maximum m) (stepSize m).

(** A value the user commits in the spinner (by the arrows or by typing)
    is taken only within the bounds of the model. *)
Definition userSetsValue (v : Z) (m : SpinnerNumberModel) : SpinnerNumberModel :=
  if (minimum m <=? v) && (v <=? maximum m) then setValue v m else m.

(** *** The window *)

Record Window := mkWindow {
  toggles : ToggleId -> JToggleButton;
  textFieldMapScale : JTextField;
  txtX : JTextField;
  txtZ : JTextField;
  cboxTexScale : JComboBox;
  spinnerThreads : SpinnerNumberModel;
  btnStartExport : bool;               (* [isEnabled()] *)
  btnForceStop : bool;                 (* [isEnabled()] *)
  exportThread : option nat            (* a reference, [None] for [null] *)
}.

Definition with_toggles (f : ToggleId -> JToggleButton) (w : Window) : Window :=
  mkWindow f (textFieldMapScale w) (txtX w) (txtZ w) (cboxTexScale w)
           (spinnerThreads w) (btnStartExport w) (btnForceStop w) (exportThread w).

Definition setEnabled (id : ToggleId) (b : bool) (w : Window) : Window :=
  with_toggles (fun i => if decide (i = id)
                         then mkToggle (isSelected (toggles w i)) b
                         else toggles w i) w.

Definition setSelected (id : ToggleId) (b : bool) (w : Window) : Window :=
  with_toggles (fun i => if decide (i = id)
                         then mkToggle b (isEnabled (toggles w i))
                         else toggles w i) w.

(** The three radio buttons are in the [ButtonGroup] [gOffset] (lines
    159-187): selecting one of them clears the other two. *)
Definition inOffsetGroup (id : ToggleId) : bool :=
  bool_decide (id ∈ [rdbtnNone; rdbtnCenter; rdbtnCustom]).

Definition selectRadio (id : ToggleId) (w : Window) : Window :=
  with_toggles (fun i => if decide (i = id)
                         then mkToggle true (isEnabled (toggles w i))
                         else if inOffsetGroup i
                         then mkToggle false (isEnabled (toggles w i))
                         else toggles w i) w.

Definition selected (id : ToggleId) (w : Window) : bool := isSelected (toggles w id).
Definition enabled (id : ToggleId) (w : Window) : bool := isEnabled (toggles w id).

Definition setMapScaleText (s : string) (w : Window) : Window :=
  mkWindow (toggles w) (mkTextField s (fieldEnabled (textFieldMapScale w)))
           (txtX w) (txtZ w) (cboxTexScale w) (spinnerThreads w)
           (btnStartExport w) (btnForceStop w) (exportThread w).

Definition setOffsetFields (tx tz : JTextField) (w : Window) : Window :=
  mkWindow (toggles w) (textFieldMapScale w) tx tz (cboxTexScale w)
           (spinnerThreads w) (btnStartExport w) (btnForceStop w) (exportThread w).

Definition setOffsetFieldsEnabled (b : bool) (w : Window) : Window :=
  setOffsetFields (mkTextField (getText (txtX w)) b)
                  (mkTextField (getText (txtZ w)) b) w.

Definition with_cboxTexScale (c : JComboBox) (w : Window) : Window :=
  mkWindow (toggles w) (textFieldMapScale w) (txtX w) (txtZ w) c
           (spinnerThreads w) (btnStartExport w) (btnForceStop w) (exportThread w).

Definition with_spinnerThreads (m : SpinnerNumberModel) (w : Window) : Window :=
  mkWindow (toggles w) (textFieldMapScale w) (txtX w) (txtZ w) (cboxTexScale w)
           m (btnStartExport w) (btnForceStop w) (exportThread w).

Definition with_export (start stop : bool) (t : option nat) (w : Window) : Window :=
  mkWindow (toggles w) (textFieldMapScale w) (txtX w) (txtZ w) (cboxTexScale w)
           (spinnerThreads w) start stop t.

(** [updateEnabledSettings], lines 1034-1062. *)
Definition updateEnabledSettings (w : Window) : Window :=
  let w := setEnabled chckbxExportSeparateLight false w in
  let w := setEnabled chckbxSingleMat false w in
  let w := setEnabled chckbxOptimiseGeo true w in
  let w :=
    if selected chckbxSeparateBlock w then
      let w := setEnabled chckbxSeparateBlockOccl true w in
      let w := setEnabled chckbxSeparateMat false w in
      let w := setEnabled chckbxSeparateChunk false w in
      setEnabled chckbxOptimiseGeo false w
    else
      let w := setEnabled chckbxSeparateBlockOccl false w in
      let w := setEnabled chckbxSeparateMat true w in
      let w := setEnabled chckbxSeparateChunk true w in
      setEnabled chckbxOptimiseGeo true w in
  if selected chckbxSeparateMat w && enabled chckbxSeparateMat w
  then setEnabled chckbxSeparateMatOccl true w
  else setEnabled chckbxSeparateMatOccl false w.

(** *** org.jmc.Options, the fields the window reads and writes *)

Inductive OffsetType := NONE | CENTER | CUSTOM.
Inductive OverwriteAction := ASK | ALWAYS | NEVER.

Record Options `{Jdk} := mkOptions {
  scale : JFloat;
  offsetX : Z;
  offsetZ : Z;
  offsetType : OffsetType;
  renderSides : bool;
  renderBiomes : bool;
  renderEntities : bool;
  renderUnknown : bool;
  objectPerMaterial : bool;
  objectPerMaterialOcclusion : bool;
  objectPerChunk : bool;
  objectPerBlock : bool;
  objectPerBlockOcclusion : bool;
  randBlockVariations : bool;
  doubleSidedFaces : bool;
  optimiseGeometry : bool;
  convertOres : bool;
  removeDuplicates : bool;
  useLastSaveLoc : bool;
  textureScale : JDouble;
  exportTex : bool;
  textureAlpha : bool;
  textureNormal : bool;
  textureSpecular : bool;
  textureMerge : bool;
  textureLight : bool;
  singleMaterial : bool;
  exportThreads : Z;
  objUseGroup : bool;
  objOverwriteAction : OverwriteAction;
  mtlOverwriteAction : OverwriteAction
}.

(** How a method ends: by returning, or by the [NullPointerException] of
    [cboxTexScale.getSelectedItem().toString()] on a [null] selection. *)
Inductive Completion := Returned | Thrown_NullPointerException.

Record Outcome `{Jdk} := mkOutcome {
  optionsAfter : Options;
  emitted : list Event;
  completion : Completion
}.

Arguments mkOptions {_}.
Arguments mkOutcome {_}.

Section WithJdk.
Context `{J : Jdk}.

(** Lines 1073-1079: a field that is empty or a lone minus sign keeps the
    current offset; [None] is the [NumberFormatException]. *)
Definition parseOffset (txt : string) (current : Z) : option Z :=
  if negb (String.eqb txt "") && negb (String.eqb txt "-")
  then Integer_parseInt txt
  else Some current.

(** [updateOptions], lines 1066-1106: everything before the texture scale. *)
Definition updateOptions_head (w : Window) (o : Options) : Options * list Event :=
  let '(newScale, ev1) :=
    match Float_parseFloat (getText (textFieldMapScale w)) with
    | Some v => (v, [])
    | None => (Float_ofZ 1, [showMessageDialog "ExportOptions.SCALE_NUM_ERR"])
    end in
  let '(newX, newZ, ev2) :=
    match parseOffset (getText (txtX w)) (offsetX o) with
    | None => (offsetX o, offsetZ o, [Log_error "Offset number format error!"])
    | Some ox =>
      match parseOffset (getText (txtZ w)) (offsetZ o) with
      | None => (ox, offsetZ o, [Log_error "Offset number format error!"])
      | Some oz => (ox, oz, [])
      end
    end in
  ({| scale := newScale;
      offsetX := newX;
      offsetZ := newZ;
      offsetType := if selected rdbtnCenter w then CENTER
                    else if selected rdbtnCustom w then CUSTOM
                    else NONE;
      renderSides := selected chckbxRenderWorldSides w;
      renderBiomes := selected chckbxRenderBiomes w;
      renderEntities := selected chckbxRenderEntities w;
      renderUnknown := selected chckbxRenderUnknownBlocks w;
      objectPerMaterial := selected chckbxSeparateMat w && enabled chckbxSeparateMat w;
      objectPerMaterialOcclusion := selected chckbxSeparateMatOccl w;
      objectPerChunk := selected chckbxSeparateChunk w && enabled chckbxSeparateChunk w;
      objectPerBlock := selected chckbxSeparateBlock w;
      objectPerBlockOcclusion := selected chckbxSeparateBlockOccl w;
      randBlockVariations := selected chckbxRandBlockVariation w;
      doubleSidedFaces := selected chckbxDoubleSidedFaces w;
      optimiseGeometry := selected chckbxOptimiseGeo w && enabled chckbxOptimiseGeo w;
      convertOres := selected chckbxConvertOreTo w;
      removeDuplicates := selected chckbxMergeVerticies w;
      useLastSaveLoc := selected chckbxUseLastSaveLoc w;
      textureScale := textureScale o;
      exportTex := exportTex o;
      textureAlpha := textureAlpha o;
      textureNormal := textureNormal o;
      textureSpecular := textureSpecular o;
      textureMerge := textureMerge o;
      textureLight := textureLight o;
      singleMaterial := singleMaterial o;
      exportThreads := exportThreads o;
      objUseGroup := objUseGroup o;
      objOverwriteAction := objOverwriteAction o;
      mtlOverwriteAction := mtlOverwriteAction o |},
   ev1 ++ ev2).

(** Lines 1108-1118, [txt] being the selected item of the combo box. *)
Definition parseTextureScale (txt : string) (current : JDouble)
    : JDouble * list Event :=
  if negb (String.eqb txt "") then
    let txt := if endsWith txt "x" then dropLast txt else txt in
    match Double_parseDouble txt with
    | Some d => (d, [])
    | None => (current, [Log_error "ExportOptions.Textures.ERR_SCALE"])
    end
  else (current, []).

(** Lines 1108-1130. *)
Definition updateOptions_tail (w : Window) (txt : string) (o : Options)
    : Options * list Event :=
  let '(newTextureScale, ev3) := parseTextureScale txt (textureScale o) in
  ({| scale := scale o;
      offsetX := offsetX o;
      offsetZ := offsetZ o;
      offsetType := offsetType o;
      renderSides := renderSides o;
      renderBiomes := renderBiomes o;
      renderEntities := renderEntities o;
      renderUnknown := renderUnknown o;
      objectPerMaterial := objectPerMaterial o;
      objectPerMaterialOcclusion := objectPerMaterialOcclusion o;
      objectPerChunk := objectPerChunk o;
      objectPerBlock := objectPerBlock o;
      objectPerBlockOcclusion := objectPerBlockOcclusion o;
      randBlockVariations := randBlockVariations o;
      doubleSidedFaces := doubleSidedFaces o;
      optimiseGeometry := optimiseGeometry o;
      convertOres := convertOres o;
      removeDuplicates := removeDuplicates o;
      useLastSaveLoc := useLastSaveLoc o;
      textureScale := newTextureScale;
      exportTex := selected chckbxExportTextures w;
      textureAlpha := selected chckbxSeparateAlphaTexture w;
      textureNormal := selected chckbxExportNormalMaps w;
      textureSpecular := selected chckbxExportSpecularMaps w;
      textureMerge := selected chckbxCombineAllTextures w;
      textureLight := selected chckbxExportSeparateLight w &&
                      enabled chckbxExportSeparateLight w;
      singleMaterial := selected chckbxSingleMat w && enabled chckbxSingleMat w;
      exportThreads := getValue (spinnerThreads w);
      objUseGroup := selected chckbxObjUseGroup w;
      objOverwriteAction := objOverwriteAction o;
      mtlOverwriteAction := mtlOverwriteAction o |},
   ev3).

(** [updateOptions], lines 1064-1131.  [o] holds the static fields of
    [Options] before the call. *)
Definition updateOptions (w : Window) (o : Options) : Outcome :=
  let '(o1, ev) := updateOptions_head w o in
  match getSelectedItem (cboxTexScale w) with
  | None => mkOutcome o1 ev Thrown_NullPointerException
  | Some txt =>
    let '(o2, ev3) := updateOptions_tail w txt o1 in
    mkOutcome o2 (ev ++ ev3) Returned
  end.

(** *** java.util.prefs.Preferences *)

(** The node stores one value per key.  Every key of the window is
    written and read at one type; a getter returns its default when the
    key is absent or holds a value it cannot read. *)
Inductive PrefValue :=
  | PBool (b : bool)
  | PInt (n : Z)
  | PFloat (f : JFloat)
  | PDouble (d : JDouble)
  | PString (s : string).

Definition getBoolean (key : string) (def : bool) (p : gmap string PrefValue) : bool :=
  match p !! key with Some (PBool b) => b | _ => def end.
Definition getInt (key : string) (def : Z) (p : gmap string PrefValue) : Z :=
  match p !! key with Some (PInt n) => n | _ => def end.
Definition getFloat (key : string) (def : JFloat) (p : gmap string PrefValue) : JFloat :=
  match p !! key with Some (PFloat f) => f | _ => def end.
Definition getDouble (key : string) (def : JDouble) (p : gmap string PrefValue) : JDouble :=
  match p !! key with Some (PDouble d) => d | _ => def end.

Definition put (kv : string * PrefValue) (p : gmap string PrefValue)
    : gmap string PrefValue :=
  <[kv.1 := kv.2]> p.

(** The check boxes [loadSettings] restores (lines 921-949), with the
    key and the default of each. *)
Definition loadedCheckBoxes : list (ToggleId * string * bool) :=
  [ (chckbxRenderUnknownBlocks, "RENDER_UNKNOWN", true);
    (chckbxRenderWorldSides, "RENDER_SIDES", false);
    (chckbxRenderBiomes, "RENDER_BIOMES", true);
    (chckbxRenderEntities, "RENDER_ENTITIES", true);
    (chckbxConvertOreTo, "CONVERT_ORES", true);
    (chckbxSeparateMat, "OBJ_PER_MTL", false);
    (chckbxSeparateMatOccl, "OBJ_PER_MTL_OCCL", true);
    (chckbxSeparateChunk, "OBJ_PER_CHUNK", false);
    (chckbxSeparateBlock, "OBJ_PER_BLOCK", false);
    (chckbxSeparateBlockOccl, "OBJ_PER_BLOCK_OCCL", false);
    (chckbxRandBlockVariation, "RAND_BLOCK_VARIATION", false);
    (chckbxDoubleSidedFaces, "DOUBLE_SINGLE_FACES", false);
    (chckbxOptimiseGeo, "OPTIMISE_GEO", true);
    (chckbxMergeVerticies, "REMOVE_DUPLICATES", false);
    (chckbxUseLastSaveLoc, "USE_LAST_SAVE_LOC", false);
    (chckbxExportTextures, "TEXTURE_EXPORT", true);
    (chckbxSeparateAlphaTexture, "TEXTURE_ALPHA", false);
    (chckbxExportNormalMaps, "TEXTURE_NORMAL", false);
    (chckbxExportSpecularMaps, "TEXTURE_SPECULAR", false);
    (chckbxExportSeparateLight, "TEXTURE_LIGHT", false);
    (chckbxCombineAllTextures, "TEXTURE_MERGE", false);
    (chckbxSingleMat, "SINGLE_MTL", false);
    (chckbxObjUseGroup, "OBJ_USE_GROUP", false) ].

(** [loadSettings], lines 896-955. *)
Definition loadSettings (p : gmap string PrefValue) (w : Window) (o : Options)
    : Window * Outcome :=
  let w := setMapScaleText (Float_toString (getFloat "DEFAULT_SCALE" (Float_ofZ 1) p)) w in
  let offsetKind := getInt "OFFSET_TYPE" 0 p in
  let w :=
    if offsetKind =? 0 then setOffsetFieldsEnabled false (selectRadio rdbtnNone w)
    else if offsetKind =? 1 then setOffsetFieldsEnabled false (selectRadio rdbtnCenter w)
    else if offsetKind =? 2 then setOffsetFieldsEnabled true (selectRadio rdbtnCustom w)
    else w in
  let w :=
    setOffsetFields
      (mkTextField (Integer_toString (getInt "OFFSET_X" 0 p)) (fieldEnabled (txtX w)))
      (mkTextField (Integer_toString (getInt "OFFSET_Z" 0 p)) (fieldEnabled (txtZ w)))
      w in
  let w :=
    foldl (fun w '(id, key, def) => setSelected id (getBoolean key def p) w)
          w loadedCheckBoxes in
  let w :=
    with_cboxTexScale
      (setSelectedItem (Double_toString (getDouble "TEXTURE_SCALE_ID" (Double_ofZ 1) p))
                       (cboxTexScale w)) w in
  let w := with_spinnerThreads (setValue (getInt "EXPORT_THREADS" 8 p) (spinnerThreads w)) w in
  let w := updateEnabledSettings w in
  (w, updateOptions w o).

Definition offsetTypeCode (t : OffsetType) : Z :=
  match t with NONE => 0 | CENTER => 1 | CUSTOM => 2 end.
Definition overwriteCode (a : OverwriteAction) : Z :=
  match a with ASK => 0 | ALWAYS => 1 | NEVER => 2 end.

(** The [prefs.put...] calls of [saveSettings] (lines 965-1031), in order. *)
Definition savedPreferences (w : Window) (o : Options) : list (string * PrefValue) :=
  [ ("DEFAULT_SCALE", PFloat (scale o));
    ("OFFSET_X", PInt (offsetX o));
    ("OFFSET_Z", PInt (offsetZ o));
    ("OFFSET_TYPE", PInt (offsetTypeCode (offsetType o)));
    ("OBJ_OVERWRITE", PInt (overwriteCode (objOverwriteAction o)));
    ("MTL_OVERWRITE", PInt (overwriteCode (mtlOverwriteAction o)));
    ("RENDER_SIDES", PBool (renderSides o));
    ("RENDER_BIOMES", PBool (renderBiomes o));
    ("RENDER_ENTITIES", PBool (renderEntities o));
    ("RENDER_UNKNOWN", PBool (renderUnknown o));
    ("OBJ_PER_MTL", PBool (selected chckbxSeparateMat w));
    ("OBJ_PER_MTL_OCCL", PBool (objectPerMaterialOcclusion o));
    ("OBJ_PER_CHUNK", PBool (selected chckbxSeparateChunk w));
    ("OBJ_PER_BLOCK", PBool (objectPerBlock o));
    ("RAND_BLOCK_VARIATION", PBool (randBlockVariations o));
    ("DOUBLE_SINGLE_FACES", PBool (doubleSidedFaces o));
    ("OPTIMISE_GEO", PBool (selected chckbxOptimiseGeo w));
    ("CONVERT_ORES", PBool (convertOres o));
    ("SINGLE_MTL", PBool (singleMaterial o));
    ("REMOVE_DUPLICATES", PBool (removeDuplicates o));
    ("USE_LAST_SAVE_LOC", PBool (useLastSaveLoc o));
    ("TEXTURE_SCALE_ID", PDouble (textureScale o));
    ("TEXTURE_EXPORT", PBool (exportTex o));
    ("TEXTURE_ALPHA", PBool (textureAlpha o));
    ("TEXTURE_NORMAL", PBool (textureNormal o));
    ("TEXTURE_SPECULAR", PBool (textureSpecular o));
    ("TEXTURE_LIGHT", PBool (textureLight o));
    ("TEXTURE_MERGE", PBool (textureMerge o));
    ("EXPORT_THREADS", PInt (exportThreads o));
    ("OBJ_USE_GROUP", PBool (objUseGroup o)) ].

(** *** Threads *)

(** A [Thread] object; a reference to it is its index in the list of the
    threads created so far.  [interruptCalled] records that
    [Thread.interrupt()] has been invoked on it. *)
Record JThread := mkThread {
  getName : string;
  started : bool;
  interruptCalled : bool
}.

Definition interrupt (t : nat) (threads : list JThread) : list JThread :=
  alter (fun th => mkThread (getName th) (started th) true) t threads.

(** *** The running program: window, static options, stored preferences,
    threads and the log *)

Record System := mkSystem {
  window : Window;
  options : Options;
  prefs : gmap string PrefValue;
  threads : list JThread;
  trace : list Event
}.

(** [saveSettings], lines 957-1032; an exception of [updateOptions]
    leaves the method before anything is stored. *)
Definition saveSettings (s : System) : System :=
  let w := updateEnabledSettings (window s) in
  let out := updateOptions w (options s) in
  let o := optionsAfter out in
  let ev := Log_debug "Saving export settings" :: emitted out in
  match completion out with
  | Returned =>
    mkSystem w o (foldl (fun p kv => put kv p) (prefs s) (savedPreferences w o))
             (threads s) (trace s ++ ev)
  | Thrown_NullPointerException =>
    mkSystem w o (prefs s) (threads s) (trace s ++ ev)
  end.

(** The action listener of [btnForceStop], lines 854-861. *)
Definition forceStop (s : System) : System :=
  match exportThread (window s) with
  | Some t =>
    mkSystem (window s) (options s) (prefs s) (interrupt t (threads s)) (trace s)
  | None => s
  end.

(** [runExport], lines 877-894.  The body of the new thread (the export
    itself, and the buttons it resets when it ends) runs on that thread
    and is not part of this method. *)
Definition runExport (s : System) : System :=
  let threads1 :=
    match exportThread (window s) with
    | Some t => interrupt t (threads s)
    | None => threads s
    end in
  let ref := length threads1 in
  let threads2 := threads1 ++ [mkThread "ExportThread" true false] in
  mkSystem (with_export false true (Some ref) (window s))
           (options s) (prefs s) threads2 (trace s).

(** *** Construction *)

(** The controls as the constructor builds them (lines 128-518):
    [rdbtnNone] selected, every check box clear and enabled, the offset
    fields holding "0" and disabled, the five texture scales with the
    first one selected, the spinner at 8 within 1..512, force-stop
    disabled and no export thread. *)
Definition texScaleChoices : list string := ["1x"; "2x"; "4x"; "8x"; "16x"].

Definition threadSpinnerModel : SpinnerNumberModel := mkSpinner 8 1 512 1.

Definition constructed (worldDirIsNull : bool) : Window :=
  mkWindow (fun id => mkToggle (bool_decide (id = rdbtnNone)) true)
           (mkTextField "" true)
           (mkTextField "0" false)
           (mkTextField "0" false)
           (mkComboBox texScaleChoices (head texScaleChoices))
           threadSpinnerModel
           (negb worldDirIsNull)
           false
           None.

(** [new ExportWindow()]: the controls, then [loadSettings()] (line 520);
    the listeners are added afterwards, so nothing is saved here. *)
Definition startup (p : gmap string PrefValue) (o : Options) (worldDirIsNull : bool)
    : System :=
  let '(w, out) := loadSettings p (constructed worldDirIsNull) o in
  mkSystem w (optionsAfter out) p [] (emitted out).

(** *** What happens to the window *)

Inductive TextFieldId := MapScaleField | XField | ZField.

(** What the user does, and the two calls that reach the window from
    outside: [mapLoaded()] (lines 1156-1158) and the end of the body of
    an export thread (lines 888-889). *)
Inductive Action :=
  | Click (id : ToggleId)
  | TypeText (field : TextFieldId) (text : string)
  | ChooseTexScale (index : nat)
  | CommitThreads (v : Z)
  | PressForceStop
  | StartExport
  | MapLoaded
  | ExportEnds.

(** [holderSingleTexOpts] is never added to the window (line 270), so
    its three check boxes are not on screen. *)
Definition onScreen (id : ToggleId) : bool :=
  negb (bool_decide
    (id ∈ [chckbxCombineAllTextures; chckbxExportSeparateLight; chckbxSingleMat])).

Definition with_window (w : Window) (s : System) : System :=
  mkSystem w (options s) (prefs s) (threads s) (trace s).

(** One action and the listener it triggers (lines 527-875):
    [offsetSaveAction] for the radio buttons, [genericSaveAction] for the
    check boxes and the combo box, [genericSaveChange] for the spinner,
    [tf_listener] for the text fields.  A disabled control does not
    react.  Of [startExport] only the call of [runExport] is kept, the
    file chooser before it is left out. *)
Definition handle (a : Action) (s : System) : System :=
  let w := window s in
  match a with
  | Click id =>
    if negb (enabled id w && onScreen id) then s
    else if inOffsetGroup id then
      let w := selectRadio id w in
      let w := setOffsetFieldsEnabled (bool_decide (id = rdbtnCustom)) w in
      saveSettings (with_window w s)
    else saveSettings (with_window (setSelected id (negb (selected id w)) w) s)
  | TypeText MapScaleField text =>
    saveSettings (with_window (setMapScaleText text w) s)
  | TypeText XField text =>
    if fieldEnabled (txtX w)
    then saveSettings (with_window (setOffsetFields (mkTextField text true) (txtZ w) w) s)
    else s
  | TypeText ZField text =>
    if fieldEnabled (txtZ w)
    then saveSettings (with_window (setOffsetFields (txtX w) (mkTextField text true) w) s)
    else s
  | ChooseTexScale index =>
    match items (cboxTexScale w) !! index with
    | Some item =>
      saveSettings (with_window (with_cboxTexScale (setSelectedItem item (cboxTexScale w)) w) s)
    | None => s
    end
  | CommitThreads v =>
    let m := userSetsValue v (spinnerThreads w) in
    if getValue m =? getValue (spinnerThreads w) then s
    else saveSettings (with_window (with_spinnerThreads m w) s)
  | PressForceStop => if btnForceStop w then forceStop s else s
  | StartExport => if btnStartExport w then runExport s else s
  | MapLoaded => with_window (with_export true (btnForceStop w) (exportThread w) w) s
  | ExportEnds =>
    match exportThread w with
    | Some _ => with_window (with_export true false (exportThread w) w) s
    | None => s
    end
  end.

Definition run (actions : list Action) (s : System) : System :=
  foldl (fun s a => handle a s) s actions.

(** The states the program can be in: after construction from any stored
    preferences and any initial options, and after any user action. *)
Inductive reachable : System -> Prop :=
  | reachable_startup p o worldDirIsNull :
      reachable (startup p o worldDirIsNull)
  | reachable_handle a s :
      reachable s -> reachable (handle a s).

End WithJdk.

End ExportWindow.

(* ===================================================================== *)
(** * A concrete class library to run the model                           *)
(* ===================================================================== *)

(** Decimal numerals stand in for [float] and [double] values: enough to
    run the window on the numbers its controls hold. *)
Module Decimal.

Definition digit (c : ascii) : option Z :=
  let n := Z.of_nat (nat_of_ascii c) in
  if (48 <=? n) && (n <=? 57) then Some (n - 48) else None.

Fixpoint digits (s : string) (acc : Z) : option Z :=
  match s with
  | EmptyString => Some acc
  | String c s' =>
    match digit c with
    | Some d => digits s' (10 * acc + d)
    | None => None
    end
  end.

(** An optional minus sign and at least one digit. *)
Definition parseInt (s : string) : option Z :=
  match s with
  | EmptyString => None
  | String "-" EmptyString => None
  | String "-" s' => Z.opp <$> digits s' 0
  | _ => digits s 0
  end.

(** A whole number, written with or without a trailing ".0". *)
Definition parseDecimal (s : string) : option Z :=
  if endsWith s ".0"
  then parseInt (String.substring 0 (String.length s - 2) s)
  else parseInt s.

Definition toString (n : Z) : string := pretty n.
Definition toStringPoint (n : Z) : string := (pretty n +:+ ".0")%string.

Definition jdk : Jdk :=
  {| JFloat := Z;
     JDouble := Z;
     Float_ofZ := fun n => n;
     Double_ofZ := fun n => n;
     Float_parseFloat := parseDecimal;
     Double_parseDouble := parseDecimal;
     Integer_parseInt := parseInt;
     Float_toString := toStringPoint;
     Double_toString := toStringPoint;
     Integer_toString := toString |}.

(** Options to start from; the constructor of the window overwrites all
    of them but the two overwrite actions. *)
Definition initialOptions : @ExportWindow.Options jdk :=
  {| ExportWindow.scale := (1 : @JFloat jdk);
     ExportWindow.offsetX := 0;
     ExportWindow.offsetZ := 0;
     ExportWindow.offsetType := ExportWindow.NONE;
     ExportWindow.renderSides := false;
     ExportWindow.renderBiomes := true;
     ExportWindow.renderEntities := false;
     ExportWindow.renderUnknown := false;
     ExportWindow.objectPerMaterial := false;
     ExportWindow.objectPerMaterialOcclusion := false;
     ExportWindow.objectPerChunk := false;
     ExportWindow.objectPerBlock := false;
     ExportWindow.objectPerBlockOcclusion := false;
     ExportWindow.randBlockVariations := false;
     ExportWindow.doubleSidedFaces := false;
     ExportWindow.optimiseGeometry := false;
     ExportWindow.convertOres := false;
     ExportWindow.removeDuplicates := false;
     ExportWindow.useLastSaveLoc := false;
     ExportWindow.textureScale := (1 : @JDouble jdk);
     ExportWindow.exportTex := true;
     ExportWindow.textureAlpha := false;
     ExportWindow.textureNormal := false;
     ExportWindow.textureSpecular := false;
     ExportWindow.textureMerge := false;
     ExportWindow.textureLight := false;
     ExportWindow.singleMaterial := false;
     ExportWindow.exportThreads := 8;
     ExportWindow.objUseGroup := false;
     ExportWindow.objOverwriteAction := ExportWindow.ASK;
     ExportWindow.mtlOverwriteAction := ExportWindow.ASK |}.

(** A first start: nothing stored yet, a world already chosen. *)
Definition firstStart : @ExportWindow.System jdk :=
  ExportWindow.startup ∅ initialOptions false.

End Decimal.

(* ===================================================================== *)
(** * Statements and sample states                                        *)
(* ===================================================================== *)

Module Statements.
Import RegionSelector.


(** [Number.isSafeInteger]: an integer that the arithmetic of JavaScript
    does not round. *)
Definition safeInteger (n : Z) : Prop :=
  - MAX_SAFE_INTEGER <= n <= MAX_SAFE_INTEGER.

(** The coordinates of a selection, the three limits, and each minimum
    plus its limit are safe integers. *)
Definition safeToTrim (MAX_X MAX_Y MAX_Z : Z) (b : Bounds) : Prop :=
  (safeInteger (minX b) /\ safeInteger (minY b) /\ safeInteger (minZ b) /\
   safeInteger (maxX b) /\ safeInteger (maxY b) /\ safeInteger (maxZ b)) /\
  (safeInteger MAX_X /\ safeInteger MAX_Y /\ safeInteger MAX_Z) /\
  (safeInteger (minX b + MAX_X) /\ safeInteger (minY b + MAX_Y) /\
   safeInteger (minZ b + MAX_Z)).

(** A selection of 700 x 384 x 21 blocks, and two selections at 2^53:
    one 2001 blocks wide, one exactly 500 blocks wide. *)
Definition tallSelection : Bounds := mkBounds (-10) (-64) 0 700 319 20.
Definition wideBeyondSafe : Bounds := mkBounds (2 ^ 53) 0 0 (2 ^ 53 + 2000) 63 9.
Definition fittingBeyondSafe : Bounds := mkBounds (2 ^ 53 - 499) 0 0 (2 ^ 53) 63 9.

(** A drag in progress, used to run the handler: the north-east handle
    of the selection 0..9 x 0..9 was grabbed at (9, 0). *)
Definition draggingNorthEast : State :=
  mkState (mkBounds 0 0 0 9 63 9) (mkXYZ 10 64 10) (mkXYZ 4 31 4)
          (Some "ne") (mkXYZ 9 0 0) (Some (mkBounds 0 0 0 9 63 9)) true.

(** [None.addModel] generates no geometry: the chunk processor is the
    same after the call, and the faces added to its output are none. *)
Definition generatesNoGeometry {ChunkProcessor Face : Type}
    (faces : ChunkProcessor -> list Face)
    (before after : ChunkProcessor) : Prop :=
  after = before /\ None.addedFaces ChunkProcessor Face faces before after = Some [].

(** The default pack is appended after the user packs whenever the
    option is selected. *)
Definition alwaysAppendsDefaultPack : Prop :=
  forall (w : Settings.Window) (jar : option File) (reload : bool) (old : list File),
    Settings.chckbxUsePackDefault w = true ->
    exists mc, Settings.resourcePacks (Settings.updateResourcePacks w jar reload old)
               = Settings.listPacks w ++ [mc].

(** An export is stopped without interrupting its thread: neither the
    force-stop action nor a new export calls [interrupt()] on the
    current export thread. *)
Definition neverInterruptsExportThread `{Jdk} : Prop :=
  forall (s : ExportWindow.System) (t : nat) (th : ExportWindow.JThread),
    ExportWindow.exportThread (ExportWindow.window s) = Some t ->
    ExportWindow.threads s !! t = Some th ->
    ExportWindow.threads (ExportWindow.forceStop s) !! t = Some th /\
    ExportWindow.threads (ExportWindow.runExport s) !! t = Some th.

(** Per-chunk and per-material grouping are never both in force. *)
Definition chunkAndMaterialExclusive `{Jdk} : Prop :=
  forall s : ExportWindow.System, ExportWindow.reachable s ->
    ~ (ExportWindow.objectPerChunk (ExportWindow.options s) = true /\
       ExportWindow.objectPerMaterial (ExportWindow.options s) = true).

(** With per-block grouping selected, neither optimise-geometry nor
    merge-duplicate-vertices is in force. *)
Definition perBlockExcludesOptimiseAndMerge `{Jdk} : Prop :=
  forall s : ExportWindow.System, ExportWindow.reachable s ->
    ExportWindow.selected ExportWindow.chckbxSeparateBlock (ExportWindow.window s) = true ->
    ExportWindow.optimiseGeometry (ExportWindow.options s) = false /\
    ExportWindow.removeDuplicates (ExportWindow.options s) = false.

(** The configured thread count is within 1..512. *)
Definition threadsInRange `{Jdk} (s : ExportWindow.System) : Prop :=
  1 <= ExportWindow.exportThreads (ExportWindow.options s) <= 512.

(** The stored thread count, when there is one, is within 1..512. *)
Definition storedThreadsInRange `{Jdk} (p : gmap string ExportWindow.PrefValue) : Prop :=
  1 <= ExportWindow.getInt "EXPORT_THREADS" 8 p <= 512.

(** The five scale factors as [double] values. *)
Definition texScaleFactors `{Jdk} : list JDouble :=
  Double_ofZ <$> [1; 2; 4; 8; 16].

(** What is used of [Double.parseDouble]: it reads the five numerals the
    combo box offers as the numbers they denote. *)
Definition parsesScaleNumerals `{Jdk} : Prop :=
  Double_parseDouble "1" = Some (Double_ofZ 1) /\
  Double_parseDouble "2" = Some (Double_ofZ 2) /\
  Double_parseDouble "4" = Some (Double_ofZ 4) /\
  Double_parseDouble "8" = Some (Double_ofZ 8) /\
  Double_parseDouble "16" = Some (Double_ofZ 16).

(** The grouping options agree with the check boxes, per-block grouping
    switching the other three off. *)
Definition flagsFollowBoxes `{Jdk} (w : ExportWindow.Window)
    (o : ExportWindow.Options) : Prop :=
  let sel id := ExportWindow.selected id w in
  ExportWindow.objectPerBlock o = sel ExportWindow.chckbxSeparateBlock /\
  ExportWindow.objectPerMaterial o =
    sel ExportWindow.chckbxSeparateMat && negb (sel ExportWindow.chckbxSeparateBlock) /\
  ExportWindow.objectPerChunk o =
    sel ExportWindow.chckbxSeparateChunk && negb (sel ExportWindow.chckbxSeparateBlock) /\
  ExportWindow.optimiseGeometry o =
    sel ExportWindow.chckbxOptimiseGeo && negb (sel ExportWindow.chckbxSeparateBlock) /\
  ExportWindow.removeDuplicates o = sel ExportWindow.chckbxMergeVerticies.

(** The combo box offers the five scales and one of them is selected. *)
Definition offersTexScales (c : ExportWindow.JComboBox) : Prop :=
  ExportWindow.items c = ExportWindow.texScaleChoices /\
  exists item, ExportWindow.getSelectedItem c = Some item /\
               item ∈ ExportWindow.texScaleChoices.

(** The spinner model has the bounds it was built with and holds a value
    within them. *)
Definition spinnerWithinBounds (m : ExportWindow.SpinnerNumberModel) : Prop :=
  ExportWindow.minimum m = 1 /\ ExportWindow.maximum m = 512 /\
  1 <= ExportWindow.getValue m <= 512.

Section Steps.
Import ExportWindow.

(** What an action leaves of the controls and the options: either the
    options and the option controls are untouched, or one control was
    changed and the settings were saved. *)
Definition untouched `{Jdk} (s s' : System) : Prop :=
  options s' = options s /\
  toggles (window s') = toggles (window s) /\
  cboxTexScale (window s') = cboxTexScale (window s) /\
  spinnerThreads (window s') = spinnerThreads (window s).

Definition saved `{Jdk} (s s' : System) : Prop :=
  exists w1,
    window s' = updateEnabledSettings w1 /\
    options s' = optionsAfter (updateOptions (updateEnabledSettings w1) (options s)) /\
    (cboxTexScale w1 = cboxTexScale (window s) \/
     exists item, item ∈ items (cboxTexScale (window s)) /\
                  cboxTexScale w1 = setSelectedItem item (cboxTexScale (window s))) /\
    (spinnerThreads w1 = spinnerThreads (window s) \/
     exists v, spinnerThreads w1 = userSetsValue v (spinnerThreads (window s))).

End Steps.

(** Sample runs on the concrete class library. *)
Section Samples.
Import ExportWindow.

(** Both grouping boxes ticked, one after the other, on a first start. *)
Definition bothGroupingsTicked : @System Decimal.jdk :=
  run [Click chckbxSeparateMat; Click chckbxSeparateChunk] Decimal.firstStart.

(** Merge-vertices ticked, then per-block grouping. *)
Definition perBlockWithMerge : @System Decimal.jdk :=
  run [Click chckbxMergeVerticies; Click chckbxSeparateBlock] Decimal.firstStart.

(** A preferences node that holds 1000 export threads. *)
Definition storedThreads1000 : gmap string (@PrefValue Decimal.jdk) :=
  {[ "EXPORT_THREADS" := PInt 1000 ]}.

(** An export has been started. *)
Definition exportRunning : @System Decimal.jdk :=
  run [StartExport] Decimal.firstStart.

End Samples.

End Statements.

(* ===================================================================== *)
(** * RegionSelector.jsx, the rest of the selection logic                 *)
(* ===================================================================== *)

Module Selection.
Import RegionSelector.


(** The axis names the input fields pass: "x", "y" and "z". *)
Inductive Axis := AxisX | AxisY | AxisZ.

Definition setAxis (axis : Axis) (v : Z) (p : XYZ) : XYZ :=
  match axis with
  | AxisX => mkXYZ v (y p) (z p)
  | AxisY => mkXYZ (x p) v (z p)
  | AxisZ => mkXYZ (x p) (y p) v
  end.

Definition getAxis (axis : Axis) (p : XYZ) : Z :=
  match axis with AxisX => x p | AxisY => y p | AxisZ => z p end.






(** [handleDragEnd], lines 903-919: the new state, and whether
    [setJustFinishedDrag(true)] was called. *)
Definition handleDragEnd (st : State) : State * bool :=
  (mkState (bounds st) (size st) (center st) None (dragStartCoords st) None false,
   isDragging st).


Section Limits.

Variables MAX_IMPORT_SIZE_X MAX_IMPORT_SIZE_Y MAX_IMPORT_SIZE_Z : Z.

(** [parseInt(value, 10)], [None] standing for [NaN]. *)
Variable parseInt10 : string -> option Z.

Definition maxSizeOf (axis : Axis) : Z :=
  match axis with
  | AxisX => MAX_IMPORT_SIZE_X
  | AxisY => MAX_IMPORT_SIZE_Y
  | AxisZ => MAX_IMPORT_SIZE_Z
  end.

(** [handleSizeChange], lines 609-630. *)
Definition handleSizeChange (axis : Axis) (value : string) (size : XYZ) : XYZ :=
  if String.eqb value "" || String.eqb value "0" then size
  else
    match parseInt10 value with
    | None => size
    | Some numValue =>
      if numValue <=? 0 then size
      else
        let maxSize := maxSizeOf axis in
        let limitedValue := Z.min numValue maxSize in
        setAxis axis limitedValue size
    end.

(** [handleCenterChange], lines 631-644. *)
Definition handleCenterChange (axis : Axis) (value : string) (center : XYZ) : XYZ :=
  if String.eqb value "" || String.eqb value "-" then center
  else
    match parseInt10 value with
    | None => center
    | Some numValue => setAxis axis numValue center
    end.

(** [handleOffsetChange], lines 645-658; the fields pass "x" or "z". *)
Definition handleOffsetChange (axisIsX : bool) (value : string) (offsets : Offsets)
    : Offsets :=
  if String.eqb value "" || String.eqb value "-" then offsets
  else
    match parseInt10 value with
    | None => offsets
    | Some numValue =>
      if axisIsX then mkOffsets numValue (off_z offsets)
      else mkOffsets (off_x offsets) numValue
    end.






End Limits.

End Selection.

Module SelectionStatements.
Import RegionSelector Selection.

(** A selection whose three extents are within the limits. *)
Definition fits (MAX_X MAX_Y MAX_Z : Z) (b : Bounds) : Prop :=
  width b <= MAX_X /\ height b <= MAX_Y /\ depth b <= MAX_Z.

(** A size that is valid on one axis: at least one block, at most the
    limit of the axis. *)
Definition validSize (MAX_X MAX_Y MAX_Z : Z) (axis : Axis) (size : XYZ) : Prop :=
  1 <= getAxis axis size <= maxSizeOf MAX_X MAX_Y MAX_Z axis.


(** A selection of 10 x 64 x 10 blocks and a world of 300 x 384 x 200. *)
Definition tenByTen : Bounds := mkBounds 0 0 0 9 63 9.

(** A decimal reader to run the input handlers with. *)
Definition parseDigits (s : string) : option Z := Decimal.parseInt s.



End SelectionStatements.

Module WindowStatements.
Import ExportWindow.

(** The check boxes whose state survives a restart: all that
    [loadSettings] restores, but for per-block occlusion (never stored)
    and the two boxes stored through options that need the box enabled
    (single material, separate light). *)
Definition restoredBoxes : list ToggleId :=
  [ chckbxRenderUnknownBlocks; chckbxRenderWorldSides; chckbxRenderBiomes;
    chckbxRenderEntities; chckbxConvertOreTo; chckbxSeparateMat;
    chckbxSeparateMatOccl; chckbxSeparateChunk; chckbxSeparateBlock;
    chckbxRandBlockVariation; chckbxDoubleSidedFaces; chckbxOptimiseGeo;
    chckbxMergeVerticies; chckbxUseLastSaveLoc; chckbxExportTextures;
    chckbxSeparateAlphaTexture; chckbxExportNormalMaps;
    chckbxExportSpecularMaps; chckbxCombineAllTextures; chckbxObjUseGroup ].

(** The keys [saveSettings] writes. *)
Definition savedKeys : list string :=
  [ "DEFAULT_SCALE"; "OFFSET_X"; "OFFSET_Z"; "OFFSET_TYPE"; "OBJ_OVERWRITE";
    "MTL_OVERWRITE"; "RENDER_SIDES"; "RENDER_BIOMES"; "RENDER_ENTITIES";
    "RENDER_UNKNOWN"; "OBJ_PER_MTL"; "OBJ_PER_MTL_OCCL"; "OBJ_PER_CHUNK";
    "OBJ_PER_BLOCK"; "RAND_BLOCK_VARIATION"; "DOUBLE_SINGLE_FACES";
    "OPTIMISE_GEO"; "CONVERT_ORES"; "SINGLE_MTL"; "REMOVE_DUPLICATES";
    "USE_LAST_SAVE_LOC"; "TEXTURE_SCALE_ID"; "TEXTURE_EXPORT"; "TEXTURE_ALPHA";
    "TEXTURE_NORMAL"; "TEXTURE_SPECULAR"; "TEXTURE_LIGHT"; "TEXTURE_MERGE";
    "EXPORT_THREADS"; "OBJ_USE_GROUP" ].

#[global] Instance OffsetType_eq_dec : EqDecision OffsetType.
Proof. solve_decision. Defined.

(** The radio button that stands for an offset type. *)
Definition radioOf (t : OffsetType) : ToggleId :=
  match t with NONE => rdbtnNone | CENTER => rdbtnCenter | CUSTOM => rdbtnCustom end.

(** Exactly the radio button of [t] is selected, and the two offset
    fields are enabled exactly when [t] is [CUSTOM]. *)
Definition offsetControlsShow (t : OffsetType) (w : Window) : Prop :=
  (forall t', selected (radioOf t') w = bool_decide (t' = t)) /\
  fieldEnabled (txtX w) = bool_decide (t = CUSTOM) /\
  fieldEnabled (txtZ w) = bool_decide (t = CUSTOM).

(** The offset type a stored OFFSET_TYPE stands for; a code other than
    0, 1 and 2 is ignored by the [switch] of lines 900-916 and leaves
    "none", which the constructor selected. *)
Definition decodeOffsetType (code : Z) : OffsetType :=
  if code =? 1 then CENTER else if code =? 2 then CUSTOM else NONE.

(** Whether a check box is enabled once [updateEnabledSettings] has
    run, from the selections and the flag the box had. *)
Definition enabledAfter (w : Window) (id : ToggleId) : bool :=
  let perBlock := selected chckbxSeparateBlock w in
  if bool_decide (id ∈ [chckbxOptimiseGeo; chckbxSeparateMat; chckbxSeparateChunk])
  then negb perBlock
  else if bool_decide (id = chckbxSeparateBlockOccl) then perBlock
  else if bool_decide (id = chckbxSeparateMatOccl)
  then selected chckbxSeparateMat w && negb perBlock
  else if bool_decide (id ∈ [chckbxExportSeparateLight; chckbxSingleMat]) then false
  else enabled id w.

(** [w'] shows the offset controls as [w] does. *)
Definition sameOffsetControls (w w' : Window) : Prop :=
  (forall t, selected (radioOf t) w' = selected (radioOf t) w) /\
  fieldEnabled (txtX w') = fieldEnabled (txtX w) /\
  fieldEnabled (txtZ w') = fieldEnabled (txtZ w).

(** The check boxes [updateEnabledSettings] enables or disables. *)
Definition managedBoxes : list ToggleId :=
  [ chckbxExportSeparateLight; chckbxSingleMat; chckbxOptimiseGeo;
    chckbxSeparateBlockOccl; chckbxSeparateMat; chckbxSeparateChunk;
    chckbxSeparateMatOccl ].

(** Every export thread but the current one has been told to stop, and
    the current one is the thread created last. *)
Definition olderThreadsInterrupted `{Jdk} (s : System) : Prop :=
  match exportThread (window s) with
  | None => threads s = []
  | Some t =>
    length (threads s) = S t /\
    forall u th, (u < t)%nat -> threads s !! u = Some th -> interruptCalled th = true
  end.

(** The window with "abc" typed as X offset and "5" as Z offset. *)
Definition badXOffset : @System Decimal.jdk :=
  run [Click rdbtnCustom; TypeText ZField "5"; TypeText XField "abc"]
      Decimal.firstStart.

(** 16x chosen and merge-vertices ticked. *)
Definition scale16Merged : @System Decimal.jdk :=
  run [ChooseTexScale 4; Click chckbxMergeVerticies] Decimal.firstStart.

(** Three exports started one after the other, the map being reloaded
    in between. *)
Definition threeExports : @System Decimal.jdk :=
  run [StartExport; MapLoaded; StartExport; MapLoaded; StartExport]
      Decimal.firstStart.

End WindowStatements.

(* ===================================================================== *)
(** * Settings: remembered paths.  Main: the console progress bar         *)
(* ===================================================================== *)

(** The string entries of the preferences node that [Settings] reads and
    writes with [prefs.get] and [prefs.put] (lines 485-513 of the
    [Settings] source). *)
Module SettingsPaths.







End SettingsPaths.

(** [ConsoleProgress], lines 131-155 of Main.java. *)
Module ConsoleProgress.

Definition SIZE : Z := 78.
Definition Integer_MAX_VALUE : Z := 2147483647.

(** What goes to [System.out]. *)
Inductive Output :=
  | print (s : string)
  | println (s : string).

(** The field [last] and everything printed so far. *)
Record Bar := mkBar { last : Z; printed : list Output }.

Definition initial : Bar := mkBar Integer_MAX_VALUE [].

(** The [while (curr > last)] loop of lines 144-148, for the number of
    rounds it makes. *)
Fixpoint advance (rounds : nat) (bar : Bar) : Bar :=
  match rounds with
  | O => bar
  | S rounds =>
    let out := printed bar ++ [print "."] in
    let last := last bar + 1 in
    let out := if last =? SIZE then out ++ [println "]"] else out in
    advance rounds (mkBar last out)
  end.

(** [setProgress], lines 137-149.  [scaled] is [(int)(SIZE * value)]:
    the product is a [float] one and is not modelled. *)
Definition setProgress (scaled : Z) (bar : Bar) : Bar :=
  let curr := Z.min scaled SIZE in
  let bar :=
    if curr <? last bar then mkBar 0 (printed bar ++ [print "["]) else bar in
  advance (Z.to_nat (curr - last bar)) bar.

(** A bar of [n] dots, closed when it is full. *)
Definition render (n : Z) : list Output :=
  print "[" :: replicate (Z.to_nat n) (print ".") ++
  (if n =? SIZE then [println "]"] else []).

(** Progress that never goes back, starting at or above [from]. *)
Fixpoint nondecreasing (from : Z) (values : list Z) : Prop :=
  match values with
  | [] => True
  | v :: values => from <= v /\ nondecreasing v values
  end.

End ConsoleProgress.

(** Proof steps used more than once. *)

(** Case analysis on every integer comparison of the goal. *)
Ltac zcompare :=
  repeat match goal with
  | |- context [(?a >=? ?b)%Z] => rewrite (Z.geb_leb a b)
  | |- context [(?a >? ?b)%Z] => rewrite (Z.gtb_ltb a b)
  | |- context [(?a <=? ?b)%Z] => destruct (Z.leb_spec a b)
  | |- context [(?a <? ?b)%Z] => destruct (Z.ltb_spec a b)
  end.


(** Membership in a list that is written out, also for a pair whose
    second component is still to be found. *)
Ltac in_list := repeat first [apply list_elem_of_here | apply list_elem_of_further].

(** A field of the options after a complete [updateOptions]. *)
Ltac option_fields :=
  unfold ExportWindow.updateOptions_tail, ExportWindow.updateOptions_head;
  repeat match goal with
  | |- context [ExportWindow.parseTextureScale ?t ?c] =>
    destruct (ExportWindow.parseTextureScale t c)
  | |- context [Float_parseFloat ?t] => destruct (Float_parseFloat t)
  | |- context [ExportWindow.parseOffset ?t ?c] => destruct (ExportWindow.parseOffset t c)
  end; simpl.

(** A field of the options after the first, respectively the second,
    part of [updateOptions]. *)
Ltac head_fields :=
  unfold ExportWindow.updateOptions_head;
  repeat match goal with
  | |- context [Float_parseFloat ?t] => destruct (Float_parseFloat t)
  | |- context [ExportWindow.parseOffset ?t ?c] => destruct (ExportWindow.parseOffset t c)
  end; reflexivity.

Ltac tail_fields :=
  unfold ExportWindow.updateOptions_tail;
  match goal with
  | |- context [ExportWindow.parseTextureScale ?t ?c] =>
    destruct (ExportWindow.parseTextureScale t c)
  end; reflexivity.


(* ===================================================================== *)
(** * Properties                                                          *)
(* ===================================================================== *)

(** ** Region selector *)

Section RegionSelectorProperties.
Import RegionSelector Statements.

Lemma trimmedBounds_min MX MY MZ b :
  minX (trimmedBounds MX MY MZ b) = minX b /\
  minY (trimmedBounds MX MY MZ b) = minY b /\
  minZ (trimmedBounds MX MY MZ b) = minZ b.
Proof. repeat split. Qed.

(** An integer up to 2^53 in magnitude is a number as it is. *)
Lemma toBinary64_exact n : Z.abs n <= 2 ^ 53 -> toBinary64 n = n.
Proof. intros H. unfold toBinary64. by rewrite (proj2 (Z.leb_le _ _) H). Qed.

(** [min + limit - 1] is computed exactly when [min + limit] is a safe
    integer. *)
Lemma trim_limit_exact m M :
  safeInteger (m + M) -> Number_sub (Number_add m M) 1 = m + M - 1.
Proof.
  unfold safeInteger, MAX_SAFE_INTEGER, Number_add, Number_sub. intros H.
  rewrite (toBinary64_exact (m + M)) by lia.
  apply toBinary64_exact. lia.
Qed.

Lemma trimmedBounds_max MX MY MZ b :
  safeToTrim MX MY MZ b ->
  maxX (trimmedBounds MX MY MZ b) = Z.min (maxX b) (minX b + MX - 1) /\
  maxY (trimmedBounds MX MY MZ b) = Z.min (maxY b) (minY b + MY - 1) /\
  maxZ (trimmedBounds MX MY MZ b) = Z.min (maxZ b) (minZ b + MZ - 1).
Proof.
  intros (_ & _ & Hx & Hy & Hz). unfold trimmedBounds; cbn [maxX maxY maxZ].
  by rewrite !trim_limit_exact.
Qed.

Lemma trimmedBounds_extent MX MY MZ b :
  safeToTrim MX MY MZ b ->
  width (trimmedBounds MX MY MZ b) <= MX /\
  height (trimmedBounds MX MY MZ b) <= MY /\
  depth (trimmedBounds MX MY MZ b) <= MZ.
Proof.
  intros Hsafe. destruct (trimmedBounds_max MX MY MZ b Hsafe) as (Hx & Hy & Hz).
  unfold width, height, depth. rewrite Hx, Hy, Hz.
  unfold trimmedBounds; cbn [minX minY minZ]. lia.
Qed.

(** C5. Bounds trimming is anchored at the requested minimum corner: the
    trimmed bounds keep minX, minY and minZ; and when the coordinates,
    the limits and each min + limit are safe integers, so that the sums
    of lines 555-557 are not rounded, each max coordinate is the minimum
    of the requested max and min + maximum import size - 1, and no
    trimmed extent exceeds the maximum import size of its axis. *)
Theorem trimmedBounds_anchored (MAX_X MAX_Y MAX_Z : Z) (b : Bounds) :
  let t := trimmedBounds MAX_X MAX_Y MAX_Z b in
  (minX t = minX b /\ minY t = minY b /\ minZ t = minZ b) /\
  (safeToTrim MAX_X MAX_Y MAX_Z b ->
   (maxX t = Z.min (maxX b) (minX b + MAX_X - 1) /\
    maxY t = Z.min (maxY b) (minY b + MAX_Y - 1) /\
    maxZ t = Z.min (maxZ b) (minZ b + MAX_Z - 1)) /\
   (maxX t - minX t + 1 <= MAX_X /\
    maxY t - minY t + 1 <= MAX_Y /\
    maxZ t - minZ t + 1 <= MAX_Z)).
Proof.
  intros t. split; [apply trimmedBounds_min|]. intros Hsafe.
  split; [by apply trimmedBounds_max|].
  apply (trimmedBounds_extent MAX_X MAX_Y MAX_Z b Hsafe).
Qed.

(** What the effect hands to [onRegionSelected] is the trimmed bounds. *)
Lemma trimEffect_reports_trimmed MX MY MZ isValid b offs refs r :
  onRegionSelected_call (trimEffect MX MY MZ isValid b offs refs) = Some r ->
  region_bounds r = trimmedBounds MX MY MZ b.
Proof.
  unfold trimEffect. destruct isValid; simpl; [|discriminate].
  match goal with |- context [if ?c then _ else _] => destruct c end;
    simpl; [|discriminate].
  intros [= <-]. reflexivity.
Qed.



Lemma dragStepTaken_inv point st :
  dragStepTaken point st = true ->
  exists op start px py,
    dragOperation st = Some op /\ truthy (Some op) = true /\
    dragStartBounds st = Some start /\ point = Some (px, py).
Proof.
  unfold dragStepTaken. intros H.
  apply andb_prop in H as [H Hp]. apply andb_prop in H as [Ho Hb].
  apply bool_decide_eq_true in Hp as [[px py] ->].
  apply bool_decide_eq_true in Hb as [start Hs].
  destruct (dragOperation st) as [op|] eqn:Hop; [|discriminate].
  by exists op, start, px, py.
Qed.


Example trim_tall_selection :
  trimmedBounds 500 256 500 (mkBounds (-10) (-64) 0 700 319 20)
  = mkBounds (-10) (-64) 0 489 191 20.
Proof. reflexivity. Qed.

Lemma tallSelection_safe : safeToTrim 500 256 500 tallSelection.
Proof.
  unfold safeToTrim, safeInteger, MAX_SAFE_INTEGER, tallSelection; simpl.
  repeat split; discriminate.
Qed.

Lemma trimmedBounds_anchored_witness :
  safeToTrim 500 256 500 tallSelection /\
  maxX (trimmedBounds 500 256 500 tallSelection) = Z.min 700 (-10 + 500 - 1) /\
  maxX (trimmedBounds 500 256 500 tallSelection)
  - minX (trimmedBounds 500 256 500 tallSelection) + 1 <= 500.
Proof.
  split; [exact tallSelection_safe|].
  destruct (trimmedBounds_anchored 500 256 500 tallSelection) as [_ H].
  destruct (H tallSelection_safe) as [(Hx & _) (Hw & _)].
  split; [exact Hx | exact Hw].
Defined.

(** Beyond the safe integers the sums of lines 555-557 are rounded: at
    minX = 2^53 the limit of 500 leaves a selection 501 blocks wide, and
    a selection exactly 500 blocks wide that ends at 2^53 is cut to 499
    blocks. *)
Example trim_beyond_safe_integers :
  maxX (trimmedBounds 500 256 500 wideBeyondSafe) = 2 ^ 53 + 500 /\
  width (trimmedBounds 500 256 500 wideBeyondSafe) = 501 /\
  width fittingBeyondSafe = 500 /\
  maxX (trimmedBounds 500 256 500 fittingBeyondSafe) = 2 ^ 53 - 1 /\
  width (trimmedBounds 500 256 500 fittingBeyondSafe) = 499.
Proof. vm_compute. repeat split. Qed.

Example drag_far_east :
  bounds (handleDragMove 500 500 (Some (700 # 1, (-3) # 2)) draggingNorthEast)
  = mkBounds 0 0 (-1) 499 63 9.
Proof. reflexivity. Qed.

(** With a limit of one block the clamp of lines 878-885 undoes the
    two-block minimum of lines 860-866: the limits have to be at least 2. *)
Example drag_with_limit_one :
  bounds (handleDragMove 1 500 (Some (700 # 1, (-3) # 2)) draggingNorthEast)
  = mkBounds 0 0 (-1) 0 63 9.
Proof. reflexivity. Qed.


End RegionSelectorProperties.

(** ** Block models and resource packs *)

Section NoneProperties.
Import Statements.
Context {ChunkProcessor ThreadChunkDeligate BlockData NamespaceID Face : Type}.
Variable faces : ChunkProcessor -> list Face.

Lemma addedFaces_same (obj : ChunkProcessor) :
  None.addedFaces ChunkProcessor Face faces obj obj = Some [].
Proof.
  unfold None.addedFaces. rewrite bool_decide_eq_true_2 by lia.
  by rewrite drop_all.
Qed.

(** C7. The None block model generates no geometry: for every chunk
    processor, boundary delegate, coordinate, block data and biome,
    [None.addModel] leaves the chunk processor as it was and adds no face
    to the mesh output. *)
Theorem None_addModel_generates_nothing
    (obj : ChunkProcessor) (chunks : ThreadChunkDeligate) (x y z : Z)
    (data : BlockData) (biome : NamespaceID) :
  generatesNoGeometry faces obj
    (None.addModel ChunkProcessor ThreadChunkDeligate BlockData NamespaceID
                   obj chunks x y z data biome).
Proof. split; [reflexivity | apply addedFaces_same]. Qed.

End NoneProperties.

Section SettingsProperties.
Import Settings Statements.

Lemma foldl_add (packs acc : list File) :
  foldl (fun acc pack => add pack acc) acc packs = acc ++ packs.
Proof.
  revert acc. induction packs as [|pack packs IH]; intros acc; simpl.
  - by rewrite app_nil_r.
  - rewrite IH. unfold add. by rewrite <- app_assoc.
Qed.

(** C4, as the code has it. The rebuilt list is the user-configured packs
    in their order, followed by the base-game jar when the use-default
    option is selected and a jar was found; when the option is selected
    but no jar is found, or the option is not selected, the list is
    exactly the user-configured packs. *)
Theorem updateResourcePacks_list (w : Window) (jar : option File)
    (reload : bool) (old : list File) :
  resourcePacks (updateResourcePacks w jar reload old) =
    listPacks w ++
    (if chckbxUsePackDefault w
     then match jar with Some mc => [mc] | None => [] end
     else []).
Proof.
  unfold updateResourcePacks. rewrite foldl_add. simpl.
  destruct (chckbxUsePackDefault w); [destruct jar|]; simpl;
    unfold add; by rewrite ?app_nil_r.
Qed.

(** C4 fails as stated: with the option selected and no jar installed,
    nothing is appended. *)
Lemma updateResourcePacks_no_jar :
  let w := mkWindow ["packs/faithful.zip"] true in
  let r := updateResourcePacks w None true [] in
  chckbxUsePackDefault w = true /\
  resourcePacks r = ["packs/faithful.zip"] /\
  ~ alwaysAppendsDefaultPack.
Proof.
  split; [reflexivity|]. split; [reflexivity|].
  intros H.
  destruct (H (mkWindow ["packs/faithful.zip"] true) None true []) as [mc Hmc];
    [reflexivity|].
  vm_compute in Hmc. discriminate Hmc.
Qed.

End SettingsProperties.

(** ** Export window *)

Section ExportWindowProperties.
Import ExportWindow Statements.
Context `{J : Jdk}.

(** *** [updateOptions] field by field *)

Lemma updateOptions_cases w o :
  (getSelectedItem (cboxTexScale w) = None /\
   optionsAfter (updateOptions w o) = (updateOptions_head w o).1) \/
  (exists txt, getSelectedItem (cboxTexScale w) = Some txt /\
   optionsAfter (updateOptions w o)
   = (updateOptions_tail w txt (updateOptions_head w o).1).1).
Proof.
  unfold updateOptions.
  destruct (updateOptions_head w o) as [o1 ev] eqn:Hhead.
  destruct (getSelectedItem (cboxTexScale w)) as [txt|].
  - right. exists txt. split; [reflexivity|]. simpl.
    destruct (updateOptions_tail w txt o1) as [o2 ev3]. reflexivity.
  - left. split; reflexivity.
Qed.

Lemma head_scale w o :
  scale (updateOptions_head w o).1 =
  match Float_parseFloat (getText (textFieldMapScale w)) with
  | Some v => v
  | None => Float_ofZ 1
  end.
Proof. head_fields. Qed.

Lemma head_grouping w o :
  let o1 := (updateOptions_head w o).1 in
  objectPerBlock o1 = selected chckbxSeparateBlock w /\
  objectPerMaterial o1 = selected chckbxSeparateMat w && enabled chckbxSeparateMat w /\
  objectPerChunk o1 = selected chckbxSeparateChunk w && enabled chckbxSeparateChunk w /\
  optimiseGeometry o1 = selected chckbxOptimiseGeo w && enabled chckbxOptimiseGeo w /\
  removeDuplicates o1 = selected chckbxMergeVerticies w.
Proof. repeat split; head_fields. Qed.

Lemma tail_keeps w txt o :
  let o2 := (updateOptions_tail w txt o).1 in
  scale o2 = scale o /\
  objectPerBlock o2 = objectPerBlock o /\
  objectPerMaterial o2 = objectPerMaterial o /\
  objectPerChunk o2 = objectPerChunk o /\
  optimiseGeometry o2 = optimiseGeometry o /\
  removeDuplicates o2 = removeDuplicates o.
Proof. repeat split; tail_fields. Qed.

Lemma tail_sets w txt o :
  let o2 := (updateOptions_tail w txt o).1 in
  textureScale o2 = (parseTextureScale txt (textureScale o)).1 /\
  exportThreads o2 = getValue (spinnerThreads w).
Proof. split; tail_fields. Qed.

(** C9. For every string in the map-scale field, [updateOptions] sets the
    scale to the parsed value when the string parses as a float and to
    the default 1.0 when it does not; the scale held before the call
    plays no part. *)
Theorem updateOptions_scale (w : Window) (o : Options) :
  scale (optionsAfter (updateOptions w o)) =
  match Float_parseFloat (getText (textFieldMapScale w)) with
  | Some v => v
  | None => Float_ofZ 1
  end.
Proof.
  destruct (updateOptions_cases w o) as [[_ ->]|(txt & _ & ->)].
  - apply head_scale.
  - destruct (tail_keeps w txt (updateOptions_head w o).1) as [-> _].
    apply head_scale.
Qed.

(** *** The grouping flags follow the check boxes *)

Lemma selected_setEnabled id id' b w :
  selected id (setEnabled id' b w) = selected id w.
Proof. unfold selected, setEnabled; simpl. by case_decide; subst. Qed.

Lemma enabled_setEnabled id id' b w :
  enabled id (setEnabled id' b w) = if decide (id = id') then b else enabled id w.
Proof. unfold enabled, setEnabled; simpl. by case_decide. Qed.

Lemma updateEnabledSettings_selected id w :
  selected id (updateEnabledSettings w) = selected id w.
Proof.
  unfold updateEnabledSettings. rewrite !selected_setEnabled.
  destruct (selected chckbxSeparateBlock w);
    rewrite !selected_setEnabled, !enabled_setEnabled; simpl;
    destruct (selected chckbxSeparateMat w); simpl;
    by rewrite !selected_setEnabled.
Qed.

Lemma updateEnabledSettings_enabled w :
  let w' := updateEnabledSettings w in
  enabled chckbxSeparateMat w' = negb (selected chckbxSeparateBlock w) /\
  enabled chckbxSeparateChunk w' = negb (selected chckbxSeparateBlock w) /\
  enabled chckbxOptimiseGeo w' = negb (selected chckbxSeparateBlock w).
Proof.
  unfold updateEnabledSettings. rewrite !selected_setEnabled.
  destruct (selected chckbxSeparateBlock w);
    rewrite !selected_setEnabled, !enabled_setEnabled; simpl;
    destruct (selected chckbxSeparateMat w); simpl;
    by rewrite !enabled_setEnabled.
Qed.

Lemma refresh_flags w o :
  flagsFollowBoxes (updateEnabledSettings w)
    (optionsAfter (updateOptions (updateEnabledSettings w) o)).
Proof.
  set (w' := updateEnabledSettings w).
  assert (Hhead : flagsFollowBoxes w' (updateOptions_head w' o).1).
  { destruct (head_grouping w' o) as (H1 & H2 & H3 & H4 & H5).
    destruct (updateEnabledSettings_enabled w) as (E1 & E2 & E3).
    fold w' in E1, E2, E3. unfold flagsFollowBoxes.
    rewrite H1, H2, H3, H4, H5, E1, E2, E3.
    unfold w'. by rewrite !updateEnabledSettings_selected. }
  destruct (updateOptions_cases w' o) as [[_ ->]|(txt & _ & ->)]; [exact Hhead|].
  destruct (tail_keeps w' txt (updateOptions_head w' o).1) as (_ & T1 & T2 & T3 & T4 & T5).
  unfold flagsFollowBoxes. rewrite T1, T2, T3, T4, T5. exact Hhead.
Qed.

(** *** One step of the window *)

Lemma updateEnabledSettings_controls w :
  cboxTexScale (updateEnabledSettings w) = cboxTexScale w /\
  spinnerThreads (updateEnabledSettings w) = spinnerThreads w.
Proof.
  unfold updateEnabledSettings.
  repeat match goal with |- context [if ?c then _ else _] => destruct c end;
    by split.
Qed.

Lemma saveSettings_result s :
  window (saveSettings s) = updateEnabledSettings (window s) /\
  options (saveSettings s) =
    optionsAfter (updateOptions (updateEnabledSettings (window s)) (options s)).
Proof.
  unfold saveSettings.
  by destruct (completion (updateOptions (updateEnabledSettings (window s)) (options s))).
Qed.

Lemma saved_intro s w1 :
  (cboxTexScale w1 = cboxTexScale (window s) \/
   exists item, item ∈ items (cboxTexScale (window s)) /\
                cboxTexScale w1 = setSelectedItem item (cboxTexScale (window s))) ->
  (spinnerThreads w1 = spinnerThreads (window s) \/
   exists v, spinnerThreads w1 = userSetsValue v (spinnerThreads (window s))) ->
  saved s (saveSettings (with_window w1 s)).
Proof.
  intros Hc Hs. exists w1.
  destruct (saveSettings_result (with_window w1 s)) as [-> ->]. by simpl.
Qed.

Lemma handle_cases a s : untouched s (handle a s) \/ saved s (handle a s).
Proof.
  assert (Hrefl : untouched s s) by by repeat split.
  destruct a as [id|field text|index|v| | | |]; simpl.
  - destruct (enabled id (window s) && onScreen id); simpl; [|by left].
    destruct (inOffsetGroup id); right; apply saved_intro; by left.
  - destruct field; [right; apply saved_intro; by left| |].
    + destruct (fieldEnabled (txtX (window s))); [|by left].
      right; apply saved_intro; by left.
    + destruct (fieldEnabled (txtZ (window s))); [|by left].
      right; apply saved_intro; by left.
  - destruct (items (cboxTexScale (window s)) !! index) as [item|] eqn:Hitem; [|by left].
    right. apply saved_intro; [right|by left].
    exists item. split; [|done]. by eapply list_elem_of_lookup_2.
  - match goal with |- context [if ?c then _ else _] => destruct c end; [by left|].
    right. apply saved_intro; [by left|right]. by exists v.
  - destruct (btnForceStop (window s)); [|by left].
    unfold forceStop. destruct (exportThread (window s)); by left.
  - destruct (btnStartExport (window s)); by left.
  - by left.
  - destruct (exportThread (window s)); by left.
Qed.

Lemma startup_result p o b :
  exists w0,
    window (startup p o b) = updateEnabledSettings w0 /\
    options (startup p o b) = optionsAfter (updateOptions (updateEnabledSettings w0) o) /\
    cboxTexScale w0 =
      setSelectedItem (Double_toString (getDouble "TEXTURE_SCALE_ID" (Double_ofZ 1) p))
                      (mkComboBox texScaleChoices (head texScaleChoices)) /\
    spinnerThreads w0 = setValue (getInt "EXPORT_THREADS" 8 p) threadSpinnerModel.
Proof.
  unfold startup, loadSettings.
  match goal with
  | |- context [updateEnabledSettings ?w] => exists w
  end.
  repeat split; cbn;
    repeat match goal with |- context [if ?c then _ else _] => destruct c end;
    reflexivity.
Qed.

Lemma run_snoc actions a (s : System) :
  run (actions ++ [a]) s = handle a (run actions s).
Proof. unfold run. by rewrite foldl_app. Qed.

Lemma run_reachable actions p o b : reachable (run actions (startup p o b)).
Proof.
  induction actions as [|a actions IH] using rev_ind.
  - apply reachable_startup.
  - rewrite run_snoc. by apply reachable_handle.
Qed.

Lemma reachable_run s :
  reachable s -> exists actions p o b, s = run actions (startup p o b).
Proof.
  induction 1 as [p o b|a s _ (actions & p & o & b & ->)].
  - by exists [], p, o, b.
  - exists (actions ++ [a]), p, o, b. by rewrite run_snoc.
Qed.

(** *** Grouping *)

Lemma reachable_flagsFollowBoxes s :
  reachable s -> flagsFollowBoxes (window s) (options s).
Proof.
  induction 1 as [p o b|a s _ IH].
  - destruct (startup_result p o b) as (w0 & -> & -> & _). apply refresh_flags.
  - destruct (handle_cases a s) as [(Ho & Ht & _)|(w1 & -> & -> & _)].
    + unfold flagsFollowBoxes, selected in *. by rewrite Ho, Ht.
    + apply refresh_flags.
Qed.

(** C2, as the code has it. Per-chunk and per-material grouping do not
    exclude each other; each is switched off by per-block grouping only.
    In every reachable state, after [updateOptions], [objectPerMaterial]
    is true exactly when the per-material box is selected and the
    per-block box is not, and [objectPerChunk] is true exactly when the
    per-chunk box is selected and the per-block box is not. *)
Theorem chunk_and_material_follow_boxes (actions : list Action)
    (p : gmap string PrefValue) (o : Options) (worldDirIsNull : bool) :
  let s := run actions (startup p o worldDirIsNull) in
  objectPerMaterial (options s) =
    selected chckbxSeparateMat (window s) && negb (selected chckbxSeparateBlock (window s)) /\
  objectPerChunk (options s) =
    selected chckbxSeparateChunk (window s) && negb (selected chckbxSeparateBlock (window s)).
Proof.
  intros s.
  destruct (reachable_flagsFollowBoxes s (run_reachable _ _ _ _)) as (_ & H1 & H2 & _).
  by split.
Qed.

(** C3, as the code has it. In every reachable state in which per-block
    grouping is selected, after [updateOptions] [optimiseGeometry] is
    false, while [removeDuplicates] is whatever the merge-vertices box
    says: per-block grouping does not switch that option off. *)
Theorem perBlock_switches_off_optimise (actions : list Action)
    (p : gmap string PrefValue) (o : Options) (worldDirIsNull : bool) :
  let s := run actions (startup p o worldDirIsNull) in
  selected chckbxSeparateBlock (window s) = true ->
  optimiseGeometry (options s) = false /\
  removeDuplicates (options s) = selected chckbxMergeVerticies (window s).
Proof.
  intros s Hblock.
  destruct (reachable_flagsFollowBoxes s (run_reachable _ _ _ _)) as (_ & _ & _ & H1 & H2).
  rewrite H1, H2, Hblock. by rewrite andb_false_r.
Qed.

(** *** Texture scale *)

Lemma setSelectedItem_offers item c :
  offersTexScales c -> offersTexScales (setSelectedItem item c).
Proof.
  intros [Hitems Hsel]. unfold setSelectedItem.
  case_bool_decide as Hin; [|by split].
  split; [done|]. exists item. split; [done|]. by rewrite <- Hitems.
Qed.

Lemma constructed_offers : offersTexScales (mkComboBox texScaleChoices (head texScaleChoices)).
Proof. split; [done|]. exists "1x". split; [done|]. unfold texScaleChoices. set_solver. Qed.

Lemma parseTextureScale_choice item current :
  parsesScaleNumerals -> item ∈ texScaleChoices ->
  (parseTextureScale item current).1 ∈ texScaleFactors.
Proof.
  intros (P1 & P2 & P4 & P8 & P16) Hin.
  unfold texScaleChoices in Hin.
  repeat (apply elem_of_cons in Hin as [->|Hin]); [..|by apply elem_of_nil in Hin];
    unfold parseTextureScale; cbn;
    rewrite ?P1, ?P2, ?P4, ?P8, ?P16; unfold texScaleFactors; cbn; set_solver.
Qed.

Lemma updateOptions_textureScale w o :
  parsesScaleNumerals -> offersTexScales (cboxTexScale w) ->
  textureScale (optionsAfter (updateOptions w o)) ∈ texScaleFactors /\
  exportThreads (optionsAfter (updateOptions w o)) = getValue (spinnerThreads w).
Proof.
  intros Hparse (_ & item & Hsel & Hin).
  destruct (updateOptions_cases w o) as [[Hnone _]|(txt & Hsome & ->)]; [congruence|].
  assert (txt = item) as -> by congruence.
  destruct (tail_sets w item (updateOptions_head w o).1) as [-> ->].
  split; [|done]. by apply parseTextureScale_choice.
Qed.

Lemma reachable_textureScale s :
  parsesScaleNumerals -> reachable s ->
  offersTexScales (cboxTexScale (window s)) /\
  textureScale (options s) ∈ texScaleFactors.
Proof.
  intros Hparse. induction 1 as [p o b|a s _ [IHc IHo]].
  - destruct (startup_result p o b) as (w0 & -> & -> & Hc & _).
    destruct (updateEnabledSettings_controls w0) as [Ec _].
    assert (offersTexScales (cboxTexScale (updateEnabledSettings w0))) as Hoff.
    { rewrite Ec, Hc. apply setSelectedItem_offers, constructed_offers. }
    split; [done|]. by apply updateOptions_textureScale.
  - destruct (handle_cases a s) as [(Ho & _ & Hc & _)|(w1 & -> & -> & Hc & _)].
    + by rewrite Ho, Hc.
    + destruct (updateEnabledSettings_controls w1) as [Ec _].
      assert (offersTexScales (cboxTexScale (updateEnabledSettings w1))) as Hoff.
      { rewrite Ec. destruct Hc as [->|(item & _ & ->)]; [done|].
        by apply setSelectedItem_offers. }
      split; [done|]. by apply updateOptions_textureScale.
Qed.

(** C8. The texture pre-scale factor is one of 1, 2, 4, 8, 16: in every
    reachable state the combo box offers exactly 1x, 2x, 4x, 8x, 16x, and
    after [updateOptions] the configured [textureScale] is one of the
    five factors.  [Double.parseDouble] is taken to read the numerals 1,
    2, 4, 8 and 16 as those numbers. *)
Theorem textureScale_among_factors (actions : list Action)
    (p : gmap string PrefValue) (o : Options) (worldDirIsNull : bool) :
  parsesScaleNumerals ->
  let s := run actions (startup p o worldDirIsNull) in
  items (cboxTexScale (window s)) = ["1x"; "2x"; "4x"; "8x"; "16x"] /\
  textureScale (options s) ∈ texScaleFactors.
Proof.
  intros Hparse s.
  destruct (reachable_textureScale s Hparse (run_reachable _ _ _ _)) as [[Hitems _] Hscale].
  by split.
Qed.

(** *** Export threads *)

Lemma updateOptions_exportThreads w o :
  offersTexScales (cboxTexScale w) ->
  exportThreads (optionsAfter (updateOptions w o)) = getValue (spinnerThreads w).
Proof.
  intros (_ & item & Hsel & _).
  destruct (updateOptions_cases w o) as [[Hnone _]|(txt & _ & ->)]; [congruence|].
  by destruct (tail_sets w txt (updateOptions_head w o).1) as [_ ->].
Qed.

Lemma reachable_offersTexScales s :
  reachable s -> offersTexScales (cboxTexScale (window s)).
Proof.
  induction 1 as [p o b|a s _ IH].
  - destruct (startup_result p o b) as (w0 & -> & _ & Hc & _).
    destruct (updateEnabledSettings_controls w0) as [-> _]. rewrite Hc.
    apply setSelectedItem_offers, constructed_offers.
  - destruct (handle_cases a s) as [(_ & _ & Hc & _)|(w1 & -> & _ & Hc & _)].
    + by rewrite Hc.
    + destruct (updateEnabledSettings_controls w1) as [-> _].
      destruct Hc as [->|(item & _ & ->)]; [done|]. by apply setSelectedItem_offers.
Qed.

(** The constructor copies the stored thread count, whatever it is, into
    the spinner and from there into the options. *)
Lemma startup_exportThreads p o b :
  getValue (spinnerThreads (window (startup p o b))) = getInt "EXPORT_THREADS" 8 p /\
  exportThreads (options (startup p o b)) = getInt "EXPORT_THREADS" 8 p.
Proof.
  pose proof (reachable_offersTexScales _ (reachable_startup p o b)) as Hoff.
  destruct (startup_result p o b) as (w0 & Hw & Ho & _ & Hs).
  rewrite Hw in Hoff. rewrite Hw, Ho, (updateOptions_exportThreads _ _ Hoff).
  destruct (updateEnabledSettings_controls w0) as [_ ->]. by rewrite Hs.
Qed.

Lemma userSetsValue_within v m :
  spinnerWithinBounds m -> spinnerWithinBounds (userSetsValue v m).
Proof.
  intros (Hmin & Hmax & Hv). unfold userSetsValue.
  destruct (Z.leb_spec (minimum m) v), (Z.leb_spec v (maximum m)); simpl; try done.
  unfold spinnerWithinBounds; simpl. lia.
Qed.

(** X26. What does hold: started from a stored thread count within 1..512 (or
    from none), in every reachable state the spinner has its bounds 1
    and 512 and a value within them, and the configured thread count is
    within 1..512. *)
Lemma reachable_threads_in_range actions p o b :
  storedThreadsInRange p ->
  spinnerWithinBounds (spinnerThreads (window (run actions (startup p o b)))) /\
  threadsInRange (run actions (startup p o b)).
Proof.
  intros Hp. unfold threadsInRange.
  enough (spinnerWithinBounds (spinnerThreads (window (run actions (startup p o b)))) /\
          exportThreads (options (run actions (startup p o b)))
          = getValue (spinnerThreads (window (run actions (startup p o b)))))
    as [Hs ->] by (split; [exact Hs | by destruct Hs as (_ & _ & Hv)]).
  induction actions as [|a actions [IHs IHo]] using rev_ind.
  - change (run [] (startup p o b)) with (startup p o b).
    destruct (startup_exportThreads p o b) as [Hv Ho].
    split; [|by rewrite Ho, Hv].
    destruct (startup_result p o b) as (w0 & Hw & _ & _ & Hs). rewrite Hw.
    destruct (updateEnabledSettings_controls w0) as [_ ->]. rewrite Hs.
    unfold spinnerWithinBounds, storedThreadsInRange in *. simpl. lia.
  - rewrite run_snoc. set (s := run actions (startup p o b)) in *.
    pose proof (reachable_offersTexScales _ (run_reachable (actions ++ [a]) p o b)) as Hoff.
    rewrite run_snoc in Hoff. fold s in Hoff.
    destruct (handle_cases a s) as [(Ho & _ & _ & Hs)|(w1 & Hw & Ho & _ & Hs)].
    + by rewrite Ho, Hs.
    + rewrite Hw in Hoff. rewrite Hw, Ho, (updateOptions_exportThreads _ _ Hoff).
      destruct (updateEnabledSettings_controls w1) as [_ ->].
      split; [|done]. destruct Hs as [->|[v ->]]; [done|]. by apply userSetsValue_within.
Qed.

(** *** Stopping an export *)

Lemma interrupt_lookup t threads th :
  threads !! t = Some th ->
  interrupt t threads !! t = Some (mkThread (getName th) (started th) true).
Proof. intros H. unfold interrupt. by rewrite list_lookup_alter_eq, H. Qed.

(** Without an export thread the force-stop action does nothing, and
    [runExport] interrupts nothing. *)
Lemma no_thread_nothing_interrupted (s : System) :
  exportThread (window s) = None ->
  forceStop s = s /\
  threads (runExport s) = threads s ++ [mkThread "ExportThread" true false].
Proof. intros Ht. unfold forceStop, runExport. by rewrite Ht. Qed.

(** C1, as the code has it.  When there is an export thread, the
    force-stop action and [runExport] (a new export started while one is
    running) both call [interrupt()] on it: the call is recorded on that
    thread, which is otherwise left as it is, and no other thread that
    exists is touched.  When there is no export thread, force-stop
    changes nothing and [runExport] interrupts no thread: it only adds
    the new export thread. *)
Theorem stop_interrupts_export_thread (s : System) :
  (forall t th,
     exportThread (window s) = Some t -> threads s !! t = Some th ->
     threads (forceStop s) !! t = Some (mkThread (getName th) (started th) true) /\
     threads (runExport s) !! t = Some (mkThread (getName th) (started th) true) /\
     (forall u, u <> t -> threads (forceStop s) !! u = threads s !! u) /\
     (forall u th', u <> t -> threads s !! u = Some th' ->
                    threads (runExport s) !! u = Some th')) /\
  (exportThread (window s) = None ->
     forceStop s = s /\
     threads (runExport s) = threads s ++ [mkThread "ExportThread" true false]).
Proof.
  split; [|apply no_thread_nothing_interrupted].
  intros t th Ht Hth. unfold forceStop, runExport. rewrite Ht. simpl.
  split; [by apply interrupt_lookup|]. split; [|split].
  - rewrite lookup_app_l.
    + by apply interrupt_lookup.
    + unfold interrupt. rewrite length_alter. by eapply lookup_lt_Some.
  - intros u Hu. unfold interrupt. by rewrite list_lookup_alter_ne.
  - intros u th' Hu Hth'. rewrite lookup_app_l.
    + unfold interrupt. by rewrite list_lookup_alter_ne.
    + unfold interrupt. rewrite length_alter. by eapply lookup_lt_Some.
Qed.

End ExportWindowProperties.

(** ** The window at work *)

Section ExportWindowRuns.
Import ExportWindow Statements.

Example firstStart_options :
  let o := options Decimal.firstStart in
  (scale o, textureScale o, exportThreads o, objectPerMaterial o, objectPerChunk o,
   objectPerBlock o, optimiseGeometry o, removeDuplicates o)
  = (1, 1, 8, false, false, false, true, false).
Proof. vm_compute. reflexivity. Qed.

Example choose_16x :
  textureScale (options (run [ChooseTexScale 4] Decimal.firstStart)) = 16.
Proof. vm_compute. reflexivity. Qed.

Example unparseable_scale :
  let s := run [TypeText MapScaleField "1,5"] Decimal.firstStart in
  scale (options s) = 1 /\
  trace s = [Log_debug "Saving export settings";
             showMessageDialog "ExportOptions.SCALE_NUM_ERR"].
Proof. vm_compute. split; reflexivity. Qed.

(** C1 fails as stated: with an export running, both the force-stop
    action and a new export call [interrupt()] on the export thread. *)
Lemma export_thread_is_interrupted :
  exportThread (window exportRunning) = Some 0%nat /\
  threads exportRunning !! 0%nat = Some (mkThread "ExportThread" true false) /\
  threads (handle PressForceStop exportRunning) !! 0%nat
    = Some (mkThread "ExportThread" true true) /\
  threads (runExport exportRunning) !! 0%nat
    = Some (mkThread "ExportThread" true true) /\
  ~ @neverInterruptsExportThread Decimal.jdk.
Proof.
  do 4 (split; [vm_compute; reflexivity|]).
  intros H.
  destruct (H exportRunning 0%nat (mkThread "ExportThread" true false)) as [Hf _];
    [vm_compute; reflexivity..|].
  vm_compute in Hf. discriminate Hf.
Qed.

Lemma stop_interrupts_export_thread_witness :
  (exportThread (window exportRunning) = Some 0%nat /\
   threads exportRunning !! 0%nat = Some (mkThread "ExportThread" true false) /\
   threads (forceStop exportRunning) !! 0%nat
   = Some (mkThread "ExportThread" true true)) /\
  (exportThread (window Decimal.firstStart) = None /\
   forceStop Decimal.firstStart = Decimal.firstStart /\
   threads (runExport Decimal.firstStart)
   = threads Decimal.firstStart ++ [mkThread "ExportThread" true false]).
Proof.
  split.
  - assert (Ht : exportThread (window exportRunning) = Some 0%nat)
      by (vm_compute; reflexivity).
    assert (Hth : threads exportRunning !! 0%nat
                  = Some (mkThread "ExportThread" true false))
      by (vm_compute; reflexivity).
    split; [exact Ht|]. split; [exact Hth|].
    destruct (stop_interrupts_export_thread exportRunning) as [H _].
    destruct (H 0%nat (mkThread "ExportThread" true false) Ht Hth) as [Hf _].
    exact Hf.
  - assert (Ht : exportThread (window Decimal.firstStart) = None)
      by (vm_compute; reflexivity).
    split; [exact Ht|].
    destruct (stop_interrupts_export_thread Decimal.firstStart) as [_ H].
    exact (H Ht).
Defined.

(** C2 fails as stated: ticking per-material and per-chunk puts both
    policies in force. *)
Lemma both_groupings_in_force :
  reachable bothGroupingsTicked /\
  objectPerChunk (options bothGroupingsTicked) = true /\
  objectPerMaterial (options bothGroupingsTicked) = true /\
  ~ @chunkAndMaterialExclusive Decimal.jdk.
Proof.
  assert (Hr : reachable bothGroupingsTicked) by apply run_reachable.
  assert (Hc : objectPerChunk (options bothGroupingsTicked) = true)
    by (vm_compute; reflexivity).
  assert (Hm : objectPerMaterial (options bothGroupingsTicked) = true)
    by (vm_compute; reflexivity).
  split; [exact Hr|]. split; [exact Hc|]. split; [exact Hm|].
  intros H. exact (H bothGroupingsTicked Hr (conj Hc Hm)).
Qed.

(** C3 fails as stated: per-block grouping leaves merge-vertices on. *)
Lemma perBlock_keeps_merge :
  reachable perBlockWithMerge /\
  selected chckbxSeparateBlock (window perBlockWithMerge) = true /\
  optimiseGeometry (options perBlockWithMerge) = false /\
  removeDuplicates (options perBlockWithMerge) = true /\
  ~ @perBlockExcludesOptimiseAndMerge Decimal.jdk.
Proof.
  assert (Hr : reachable perBlockWithMerge) by apply run_reachable.
  assert (Hb : selected chckbxSeparateBlock (window perBlockWithMerge) = true)
    by (vm_compute; reflexivity).
  assert (Hd : removeDuplicates (options perBlockWithMerge) = true)
    by (vm_compute; reflexivity).
  split; [exact Hr|]. split; [exact Hb|].
  split; [vm_compute; reflexivity|]. split; [exact Hd|].
  intros H. destruct (H perBlockWithMerge Hr Hb) as [_ Hfalse].
  rewrite Hd in Hfalse. discriminate Hfalse.
Qed.

Lemma perBlock_switches_off_optimise_witness :
  selected chckbxSeparateBlock (window perBlockWithMerge) = true /\
  optimiseGeometry (options perBlockWithMerge) = false /\
  removeDuplicates (options perBlockWithMerge)
  = selected chckbxMergeVerticies (window perBlockWithMerge).
Proof.
  split; [vm_compute; reflexivity|].
  apply (perBlock_switches_off_optimise (J := Decimal.jdk)
           [Click chckbxMergeVerticies; Click chckbxSeparateBlock] ∅
           Decimal.initialOptions false).
  vm_compute. reflexivity.
Defined.

Lemma textureScale_among_factors_witness :
  @parsesScaleNumerals Decimal.jdk /\
  textureScale (options (run [ChooseTexScale 3; Click chckbxSeparateBlock]
                             Decimal.firstStart))
  ∈ @texScaleFactors Decimal.jdk.
Proof.
  split; [repeat split|].
  apply (textureScale_among_factors (J := Decimal.jdk)
           [ChooseTexScale 3; Click chckbxSeparateBlock] ∅
           Decimal.initialOptions false).
  repeat split.
Defined.

(** C6 at a stored thread count outside the range: the constructor puts
    the stored 1000 into the spinner, unchecked, and [updateOptions]
    copies it into [exportThreads]. *)
Theorem stored_thread_count_not_checked :
  let s := startup storedThreads1000 Decimal.initialOptions false in
  getValue (spinnerThreads (window s)) = 1000 /\
  exportThreads (options s) = 1000 /\
  ~ threadsInRange s.
Proof.
  assert (H : exportThreads
                (options (startup storedThreads1000 Decimal.initialOptions false)) = 1000)
    by (vm_compute; reflexivity).
  split; [vm_compute; reflexivity|]. split; [exact H|].
  unfold threadsInRange. rewrite H. lia.
Qed.

End ExportWindowRuns.

(* ===================================================================== *)
(** * Further properties                                                  *)
(* ===================================================================== *)

(** ** Region selector: sizes, centres and bounds *)

Section SelectionProperties.
Import RegionSelector Selection Statements SelectionStatements.




Lemma enforceMaxSize_sizes MX MZ op b :
  let r := enforceMaxSize MX MZ op b in
  r.2.1 = width r.1 /\ r.2.2 = depth r.1 /\
  minY r.1 = minY b /\ maxY r.1 = maxY b.
Proof.
  unfold enforceMaxSize, width, depth.
  destruct (includes op "w"), (includes op "n"); zcompare; simpl; lia.
Qed.





Lemma applyDrag_edges op start dx dz b :
  let b' := applyDrag op start dx dz b in
  (if includes op "w" then maxX b' = maxX b else minX b' = minX b) /\
  (if includes op "n" then maxZ b' = maxZ b else minZ b' = minZ b) /\
  minY b' = minY b /\ maxY b' = maxY b.
Proof.
  unfold applyDrag.
  repeat match goal with
  | |- context [String.eqb op ?l] =>
    destruct (String.eqb_spec op l) as [->|]; [by repeat split|]
  end.
  by destruct (includes op "w"), (includes op "n").
Qed.

Lemma enforceMinSize_edges op b :
  let b' := enforceMinSize op b in
  (if includes op "w" then maxX b' = maxX b else minX b' = minX b) /\
  (if includes op "n" then maxZ b' = maxZ b else minZ b' = minZ b) /\
  minY b' = minY b /\ maxY b' = maxY b.
Proof.
  unfold enforceMinSize.
  destruct (includes op "w"), (includes op "n"); zcompare; simpl; zcompare; by simpl.
Qed.

Lemma enforceMaxSize_edges MX MZ op b :
  let b' := (enforceMaxSize MX MZ op b).1 in
  (if includes op "w" then maxX b' = maxX b else minX b' = minX b) /\
  (if includes op "n" then maxZ b' = maxZ b else minZ b' = minZ b).
Proof.
  unfold enforceMaxSize.
  destruct (includes op "w"), (includes op "n"); zcompare; by simpl.
Qed.

(** X5. A drag step moves only the dragged edges: the edge opposite to
    the handle stays where the current bounds have it (the east edge for
    a direction containing "w", the west edge otherwise; the south edge
    for a direction containing "n", the north edge otherwise), through
    the two-block minimum and the clamp to the limit as well; the
    vertical range is never touched. *)
Theorem handleDragMove_keeps_opposite_edge (MAX_X MAX_Z : Z) point st op :
  dragOperation st = Some op ->
  dragStepTaken point st = true ->
  let b := bounds st in
  let b' := bounds (handleDragMove MAX_X MAX_Z point st) in
  (if includes op "w" then maxX b' = maxX b else minX b' = minX b) /\
  (if includes op "n" then maxZ b' = maxZ b else minZ b' = minZ b) /\
  minY b' = minY b /\ maxY b' = maxY b.
Proof.
  intros Hop Hstep.
  destruct (dragStepTaken_inv _ _ Hstep) as (op' & start & px & py & Hop' & Ht & Hs & ->).
  assert (op' = op) as -> by congruence.
  unfold handleDragMove. rewrite Hop, Hs, Ht. simpl.
  set (b0 := applyDrag op start _ _ (bounds st)).
  destruct (applyDrag_edges op start (Math_round px - x (dragStartCoords st))
              (Math_round py - z (dragStartCoords st)) (bounds st)) as (A1 & A2 & A3 & A4).
  fold b0 in A1, A2, A3, A4.
  destruct (enforceMinSize_edges op b0) as (B1 & B2 & B3 & B4).
  destruct (enforceMaxSize_edges MAX_X MAX_Z op (enforceMinSize op b0)) as (C1 & C2).
  destruct (enforceMaxSize_sizes MAX_X MAX_Z op (enforceMinSize op b0)) as (_ & _ & D3 & D4).
  destruct (enforceMaxSize MAX_X MAX_Z op (enforceMinSize op b0)) as [b2 [sx sz]].
  simpl in *.
  destruct (includes op "w"), (includes op "n"); repeat split; congruence.
Qed.

Lemma handleDragMove_keeps_opposite_edge_witness :
  dragOperation draggingNorthEast = Some "ne" /\
  minX (bounds (handleDragMove 500 500 (Some (700 # 1, (-3) # 2)) draggingNorthEast)) = 0.
Proof.
  split; [reflexivity|].
  destruct (handleDragMove_keeps_opposite_edge 500 500 (Some (700 # 1, (-3) # 2))
              draggingNorthEast "ne" eq_refl eq_refl) as (H & _).
  exact H.
Defined.

(** X6. Trimming is idempotent: trimmed bounds are not changed by
    trimming them again. *)
Theorem trimmedBounds_idempotent (MAX_X MAX_Y MAX_Z : Z) (b : Bounds) :
  trimmedBounds MAX_X MAX_Y MAX_Z (trimmedBounds MAX_X MAX_Y MAX_Z b)
  = trimmedBounds MAX_X MAX_Y MAX_Z b.
Proof.
  unfold trimmedBounds; cbn [minX minY minZ maxX maxY maxZ].
  f_equal; apply Z.min_l, Z.le_min_r.
Qed.

(** X7. Trimming leaves a selection that fits alone: when the
    coordinates, the limits and each min + limit are safe integers, and
    no extent exceeds its limit, the trimmed bounds are the requested
    bounds.  (Beyond the safe integers the sums of lines 555-557 are
    rounded and a fitting selection can lose a block.) *)
Theorem trimmedBounds_fits (MAX_X MAX_Y MAX_Z : Z) (b : Bounds) :
  safeToTrim MAX_X MAX_Y MAX_Z b ->
  fits MAX_X MAX_Y MAX_Z b -> trimmedBounds MAX_X MAX_Y MAX_Z b = b.
Proof.
  intros Hsafe (Hx & Hy & Hz).
  destruct (trimmedBounds_max MAX_X MAX_Y MAX_Z b Hsafe) as (Hmx & Hmy & Hmz).
  destruct (trimmedBounds_min MAX_X MAX_Y MAX_Z b) as (Hnx & Hny & Hnz).
  unfold width, height, depth in *.
  destruct (trimmedBounds MAX_X MAX_Y MAX_Z b) as [x0 y0 z0 x1 y1 z1].
  destruct b as [a0 b0 c0 a1 b1 c1]; simpl in *. f_equal; lia.
Qed.

Lemma tenByTen_safe : safeToTrim 500 256 500 tenByTen.
Proof.
  unfold safeToTrim, safeInteger, MAX_SAFE_INTEGER, tenByTen; simpl.
  repeat split; discriminate.
Qed.

Lemma trimmedBounds_fits_witness :
  safeToTrim 500 256 500 tenByTen /\ fits 500 256 500 tenByTen /\
  trimmedBounds 500 256 500 tenByTen = tenByTen.
Proof.
  assert (H : fits 500 256 500 tenByTen) by (vm_compute; repeat split; discriminate).
  split; [exact tenByTen_safe|]. split; [exact H|].
  apply (trimmedBounds_fits 500 256 500 tenByTen tenByTen_safe H).
Defined.

Lemma Bounds_eqb_refl b : Bounds_eqb b b = true.
Proof. unfold Bounds_eqb. by rewrite !Z.eqb_refl. Qed.

(** X8. The trimming effect reports a change once: run again on the same
    bounds and offsets with the refs it left behind, it calls neither
    [onRegionSelected] nor [setSize] and leaves the refs as they are. *)
Theorem trimEffect_settles (MAX_X MAX_Y MAX_Z : Z) (isValid : bool) (b : Bounds)
    (offsets : Offsets) (refs : EffectRefs) :
  let first := trimEffect MAX_X MAX_Y MAX_Z isValid b offsets refs in
  let second := trimEffect MAX_X MAX_Y MAX_Z isValid b offsets (refs_after first) in
  onRegionSelected_call second = None /\
  setSize_call second = None /\
  refs_after second = refs_after first.
Proof.
  intros first second. subst second.
  unfold trimEffect in first. unfold trimEffect.
  destruct isValid; simpl in *; [|done].
  set (t := trimmedBounds MAX_X MAX_Y MAX_Z b) in *.
  set (changed := _ || _) in first.
  destruct changed eqn:Hchanged; subst first; simpl.
  - by rewrite Bounds_eqb_refl, !Z.eqb_refl.
  - subst changed. by rewrite Hchanged.
Qed.

(** X9. [handleSizeChange] keeps a size valid: with limits of at least
    one block, a size that is between 1 and the limit on some axis is
    still so after any input on any axis; an input that is empty, "0",
    not a number or not positive changes nothing, and a larger number is
    cut to the limit of its axis. *)
Theorem handleSizeChange_keeps_valid (MAX_X MAX_Y MAX_Z : Z)
    (parseInt10 : string -> option Z) (axis a : Axis) (value : string) (size : XYZ) :
  (forall ax, 1 <= maxSizeOf MAX_X MAX_Y MAX_Z ax) ->
  validSize MAX_X MAX_Y MAX_Z a size ->
  validSize MAX_X MAX_Y MAX_Z a
    (handleSizeChange MAX_X MAX_Y MAX_Z parseInt10 axis value size).
Proof.
  intros Hmax Hvalid. unfold handleSizeChange.
  destruct (_ || _); [done|].
  destruct (parseInt10 value) as [n|]; [|done].
  destruct (Z.leb_spec n 0); [done|].
  pose proof (Hmax axis). unfold validSize in *.
  destruct axis, a; simpl in *; lia.
Qed.

Lemma handleSizeChange_keeps_valid_witness :
  validSize 500 256 500 AxisX (mkXYZ 10 64 10) /\
  handleSizeChange 500 256 500 parseDigits AxisX "9000" (mkXYZ 10 64 10)
  = mkXYZ 500 64 10 /\
  validSize 500 256 500 AxisX
    (handleSizeChange 500 256 500 parseDigits AxisX "9000" (mkXYZ 10 64 10)).
Proof.
  assert (H : validSize 500 256 500 AxisX (mkXYZ 10 64 10))
    by (unfold validSize; simpl; lia).
  split; [exact H|]. split; [reflexivity|].
  apply (handleSizeChange_keeps_valid 500 256 500 parseDigits AxisX AxisX "9000"
           (mkXYZ 10 64 10)); [intros []; simpl; lia | exact H].
Defined.






(** X24. Trimming never empties a selection of safe integers: when the
    coordinates, the limits and each min + limit are safe integers and
    the limits are at least one block, bounds that are valid (every
    extent positive) are still valid after trimming, and each trimmed
    extent is the requested extent cut to its limit. *)
Theorem trimmedBounds_valid (MAX_X MAX_Y MAX_Z : Z) (b : Bounds) :
  safeToTrim MAX_X MAX_Y MAX_Z b ->
  1 <= MAX_X -> 1 <= MAX_Y -> 1 <= MAX_Z ->
  computeIsValid b = true ->
  let t := trimmedBounds MAX_X MAX_Y MAX_Z b in
  computeIsValid t = true /\
  width t = Z.min (width b) MAX_X /\
  height t = Z.min (height b) MAX_Y /\
  depth t = Z.min (depth b) MAX_Z.
Proof.
  intros Hsafe HX HY HZ Hvalid t. unfold computeIsValid in *.
  apply andb_prop in Hvalid as [Hvalid Hd]. apply andb_prop in Hvalid as [Hw Hh].
  apply Z.ltb_lt in Hw, Hh, Hd.
  destruct (trimmedBounds_max MAX_X MAX_Y MAX_Z b Hsafe) as (Hmx & Hmy & Hmz).
  destruct (trimmedBounds_min MAX_X MAX_Y MAX_Z b) as (Hnx & Hny & Hnz).
  fold t in Hmx, Hmy, Hmz, Hnx, Hny, Hnz.
  unfold width, height, depth in *.
  split; [|lia].
  rewrite !andb_true_iff, !Z.ltb_lt. lia.
Qed.

Lemma trimmedBounds_valid_witness :
  safeToTrim 500 256 500 tallSelection /\
  computeIsValid tallSelection = true /\
  computeIsValid (trimmedBounds 500 256 500 tallSelection) = true.
Proof.
  split; [exact tallSelection_safe|]. split; [reflexivity|].
  destruct (trimmedBounds_valid 500 256 500 tallSelection)
    as [H _]; [exact tallSelection_safe | lia | lia | lia | reflexivity | exact H].
Defined.

(** Beyond the safe integers trimming can empty a selection: one block
    at 2^53 with a limit of one block is cut to nothing. *)
Example trim_empties_beyond_safe_integers :
  computeIsValid (mkBounds (2 ^ 53) 0 0 (2 ^ 53) 0 0) = true /\
  computeIsValid (trimmedBounds 1 1 1 (mkBounds (2 ^ 53) 0 0 (2 ^ 53) 0 0)) = false.
Proof. vm_compute. split; reflexivity. Qed.

End SelectionProperties.

(** ** Export window: what is stored and what comes back *)

Section StoredSettings.
Import ExportWindow Statements WindowStatements.
Context `{J : Jdk}.

Lemma lookup_foldl_put_notin (l : list (string * PrefValue)) p k :
  k ∉ l.*1 -> foldl (fun p kv => put kv p) p l !! k = p !! k.
Proof.
  revert p. induction l as [|[k0 v0] l IH]; intros p Hk; [done|].
  simpl in *. apply not_elem_of_cons in Hk as [Hne Hk].
  rewrite IH by done. unfold put; simpl. by rewrite lookup_insert_ne.
Qed.

Lemma lookup_foldl_put_in (l : list (string * PrefValue)) p k v :
  NoDup l.*1 -> (k, v) ∈ l -> foldl (fun p kv => put kv p) p l !! k = Some v.
Proof.
  revert p. induction l as [|[k0 v0] l IH]; intros p Hnd Hin.
  - by apply elem_of_nil in Hin.
  - simpl in *. apply NoDup_cons in Hnd as [Hk0 Hnd].
    apply elem_of_cons in Hin as [[= -> ->]|Hin].
    + rewrite lookup_foldl_put_notin by done. unfold put; simpl.
      by rewrite lookup_insert_eq.
    + by apply IH.
Qed.

Lemma savedPreferences_keys w o : (savedPreferences w o).*1 = savedKeys.
Proof. reflexivity. Qed.

Lemma savedKeys_NoDup : NoDup savedKeys.
Proof. apply (bool_decide_unpack (NoDup savedKeys)). vm_compute. exact I. Qed.

Lemma updateOptions_returned w o item :
  getSelectedItem (cboxTexScale w) = Some item ->
  completion (updateOptions w o) = Returned /\
  optionsAfter (updateOptions w o)
  = (updateOptions_tail w item (updateOptions_head w o).1).1.
Proof.
  intros Hsel. unfold updateOptions. rewrite Hsel.
  destruct (updateOptions_head w o) as [o1 ev]; simpl.
  by destruct (updateOptions_tail w item o1) as [o2 ev3].
Qed.

Lemma saveSettings_prefs s item :
  getSelectedItem (cboxTexScale (window s)) = Some item ->
  let w := updateEnabledSettings (window s) in
  let o := (updateOptions_tail w item (updateOptions_head w (options s)).1).1 in
  options (saveSettings s) = o /\
  prefs (saveSettings s)
  = foldl (fun p kv => put kv p) (prefs s) (savedPreferences w o).
Proof.
  intros Hsel w o.
  assert (Hsel' : getSelectedItem (cboxTexScale w) = Some item).
  { unfold w. by destruct (updateEnabledSettings_controls (window s)) as [-> _]. }
  destruct (updateOptions_returned w (options s) item Hsel') as [Hc Ho].
  unfold saveSettings. fold w. rewrite Hc, Ho. by split.
Qed.

Lemma saveSettings_window s : window (saveSettings s) = updateEnabledSettings (window s).
Proof. unfold saveSettings. by destruct (completion _). Qed.

(** X13. [saveSettings] writes the thirty keys of the export window and
    no other.  When the combo box has a selected item (so that
    [updateOptions] returns), each of the thirty keys of [savedKeys]
    holds afterwards the value that lines 965-1031 put for it, taken from
    the controls and options as [updateOptions] left them; every other
    key of the preferences node keeps its value (or stays absent) in any
    case; and when the combo box has no selected item nothing is
    written.  OBJ_PER_BLOCK_OCCL, which [loadSettings] reads, is one of
    the keys never written. *)
Theorem saveSettings_thirty_keys (s : System) (k : string) :
  (k ∉ savedKeys -> prefs (saveSettings s) !! k = prefs s !! k) /\
  (is_Some (getSelectedItem (cboxTexScale (window s))) -> k ∈ savedKeys ->
   exists v,
     (k, v) ∈ savedPreferences (window (saveSettings s)) (options (saveSettings s)) /\
     prefs (saveSettings s) !! k = Some v) /\
  (getSelectedItem (cboxTexScale (window s)) = None ->
   prefs (saveSettings s) = prefs s).
Proof.
  split; [|split].
  - intros Hk. unfold saveSettings.
    destruct (completion _); cbn [prefs]; [|reflexivity].
    apply lookup_foldl_put_notin. by rewrite savedPreferences_keys.
  - intros [item Hsel] Hk.
    destruct (saveSettings_prefs s item Hsel) as [Ho Hp].
    rewrite saveSettings_window, Ho, Hp.
    set (w := updateEnabledSettings (window s)).
    set (o := (updateOptions_tail w item (updateOptions_head w (options s)).1).1).
    rewrite <- (savedPreferences_keys w o) in Hk.
    apply list_elem_of_fmap in Hk as ([k' v] & -> & Hin).
    exists v. split; [exact Hin|].
    apply lookup_foldl_put_in; [|exact Hin].
    rewrite savedPreferences_keys. apply savedKeys_NoDup.
  - intros Hsel. unfold saveSettings, updateOptions.
    destruct (updateEnabledSettings_controls (window s)) as [-> _]. rewrite Hsel.
    by destruct (updateOptions_head _ _).
Qed.

Lemma startup_box p o b id key def :
  (id, key, def) ∈ loadedCheckBoxes ->
  selected id (window (startup p o b)) = getBoolean key def p.
Proof.
  intros Hin. unfold startup, loadSettings. simpl.
  rewrite updateEnabledSettings_selected.
  unfold loadedCheckBoxes in Hin.
  repeat (apply elem_of_cons in Hin as [[= -> -> ->]|Hin]; [reflexivity|]).
  by apply elem_of_nil in Hin.
Qed.

(** X14. The check boxes survive a restart: for each of the twenty boxes
    of [restoredBoxes], the window built from the preferences that
    [saveSettings] stored shows the box as it was when the settings were
    saved. *)
Theorem saved_boxes_restored (s : System) (o : Options) (worldDirIsNull : bool)
    (id : ToggleId) :
  offersTexScales (cboxTexScale (window s)) ->
  id ∈ restoredBoxes ->
  selected id (window (startup (prefs (saveSettings s)) o worldDirIsNull))
  = selected id (window s).
Proof.
  intros (_ & item & Hsel & _) Hin.
  destruct (saveSettings_prefs s item Hsel) as [_ Hprefs].
  set (w := updateEnabledSettings (window s)) in *.
  set (o' := (updateOptions_tail w item (updateOptions_head w (options s)).1).1) in *.
  pose proof (savedKeys_NoDup) as Hnd. rewrite <- (savedPreferences_keys w o') in Hnd.
  rewrite <- (updateEnabledSettings_selected id (window s)). fold w.
  unfold restoredBoxes in Hin.
  repeat (apply elem_of_cons in Hin as [->|Hin];
    [erewrite startup_box by in_list;
     unfold getBoolean; rewrite Hprefs;
     erewrite lookup_foldl_put_in by (first [exact Hnd | unfold savedPreferences; in_list]);
     subst o'; option_fields; reflexivity|]).
  by apply elem_of_nil in Hin.
Qed.

(** X15. The thread count survives a restart: the window built from the
    preferences that [saveSettings] stored has the spinner at the value
    it had when the settings were saved, and configures that value. *)
Theorem saved_threads_restored (s : System) (o : Options) (worldDirIsNull : bool) :
  offersTexScales (cboxTexScale (window s)) ->
  let restarted := startup (prefs (saveSettings s)) o worldDirIsNull in
  getValue (spinnerThreads (window restarted)) = getValue (spinnerThreads (window s)) /\
  exportThreads (options restarted) = getValue (spinnerThreads (window s)).
Proof.
  intros (_ & item & Hsel & _) restarted. subst restarted.
  destruct (saveSettings_prefs s item Hsel) as [_ Hprefs].
  set (w := updateEnabledSettings (window s)) in *.
  set (o' := (updateOptions_tail w item (updateOptions_head w (options s)).1).1) in *.
  pose proof (savedKeys_NoDup) as Hnd. rewrite <- (savedPreferences_keys w o') in Hnd.
  destruct (startup_exportThreads (prefs (saveSettings s)) o worldDirIsNull) as [-> ->].
  assert (getInt "EXPORT_THREADS" 8 (prefs (saveSettings s))
          = getValue (spinnerThreads (window s))) as ->; [|done].
  unfold getInt. rewrite Hprefs.
  erewrite lookup_foldl_put_in by (first [exact Hnd | unfold savedPreferences; in_list]).
  subst o'. option_fields.
  all: unfold w; by destruct (updateEnabledSettings_controls (window s)) as [_ ->].
Qed.

(** X16. The texture scale does not survive a restart: [loadSettings]
    looks the stored number up among the items by its [Double.toString]
    text, and as long as that text is not literally one of "1x" ... "16x"
    the selection stays at the first item, so every start shows 1x,
    whatever was stored. *)
Theorem texture_scale_not_restored (p : gmap string PrefValue) (o : Options)
    (worldDirIsNull : bool) :
  Double_toString (getDouble "TEXTURE_SCALE_ID" (Double_ofZ 1) p) ∉ texScaleChoices ->
  getSelectedItem (cboxTexScale (window (startup p o worldDirIsNull))) = Some "1x".
Proof.
  intros Hnot.
  destruct (startup_result p o worldDirIsNull) as (w0 & -> & _ & Hc & _).
  destruct (updateEnabledSettings_controls w0) as [-> _]. rewrite Hc.
  unfold setSelectedItem; simpl. by rewrite bool_decide_eq_false_2.
Qed.

End StoredSettings.

(** ** Export window: enabling, offsets and threads *)

Section WindowInvariants.
Import ExportWindow Statements WindowStatements.
Context `{J : Jdk}.

Lemma updateEnabledSettings_fields w :
  textFieldMapScale (updateEnabledSettings w) = textFieldMapScale w /\
  txtX (updateEnabledSettings w) = txtX w /\
  txtZ (updateEnabledSettings w) = txtZ w /\
  btnStartExport (updateEnabledSettings w) = btnStartExport w /\
  btnForceStop (updateEnabledSettings w) = btnForceStop w /\
  exportThread (updateEnabledSettings w) = exportThread w.
Proof.
  unfold updateEnabledSettings.
  repeat match goal with |- context [if ?c then _ else _] => destruct c end;
    by repeat split.
Qed.

Lemma updateEnabledSettings_enabledAfter w id :
  enabled id (updateEnabledSettings w) = enabledAfter w id.
Proof.
  unfold updateEnabledSettings, enabledAfter. rewrite !selected_setEnabled.
  destruct (selected chckbxSeparateBlock w);
    rewrite !selected_setEnabled, !enabled_setEnabled; simpl;
    destruct (selected chckbxSeparateMat w); simpl;
    rewrite !enabled_setEnabled; destruct id; reflexivity.
Qed.

Lemma toggles_ext (w1 w2 : Window) id :
  selected id w1 = selected id w2 -> enabled id w1 = enabled id w2 ->
  toggles w1 id = toggles w2 id.
Proof.
  unfold selected, enabled. destruct (toggles w1 id), (toggles w2 id); simpl.
  by intros -> ->.
Qed.

(** X17. [updateEnabledSettings] only enables and disables: it changes no
    selection, no text field, not the combo box, the spinner, the two
    buttons or the export thread, and of the enabled flags only those of
    the seven boxes of [managedBoxes]; applied twice it gives what it
    gives applied once. *)
Theorem updateEnabledSettings_frame (w : Window) (id : ToggleId) :
  let w' := updateEnabledSettings w in
  selected id w' = selected id w /\
  (id ∉ managedBoxes -> enabled id w' = enabled id w) /\
  toggles (updateEnabledSettings w') id = toggles w' id /\
  (textFieldMapScale w' = textFieldMapScale w /\ txtX w' = txtX w /\ txtZ w' = txtZ w) /\
  (cboxTexScale w' = cboxTexScale w /\ spinnerThreads w' = spinnerThreads w) /\
  (btnStartExport w' = btnStartExport w /\ btnForceStop w' = btnForceStop w /\
   exportThread w' = exportThread w).
Proof.
  intros w'. subst w'.
  split; [apply updateEnabledSettings_selected|].
  destruct (updateEnabledSettings_fields w) as (F1 & F2 & F3 & F4 & F5 & F6).
  destruct (updateEnabledSettings_controls w) as (C1 & C2).
  split; [|split; [|by repeat split]].
  - intros Hid. rewrite updateEnabledSettings_enabledAfter.
    destruct id; try reflexivity;
      exfalso; apply Hid; unfold managedBoxes; solve [in_list].
  - apply toggles_ext.
    + apply updateEnabledSettings_selected.
    + rewrite !updateEnabledSettings_enabledAfter. unfold enabledAfter.
      rewrite !updateEnabledSettings_selected, updateEnabledSettings_enabledAfter.
      destruct id; reflexivity.
Qed.

(** X18. A malformed X offset also blocks the Z offset: when the X field
    holds text that [Integer.parseInt] rejects (and that is neither empty
    nor a lone minus sign), [updateOptions] logs the error and keeps both
    offsets as they were, whatever the Z field holds. *)
Theorem malformed_x_offset (w : Window) (o : Options) :
  getText (txtX w) <> "" -> getText (txtX w) <> "-" ->
  Integer_parseInt (getText (txtX w)) = None ->
  let out := updateOptions w o in
  offsetX (optionsAfter out) = offsetX o /\
  offsetZ (optionsAfter out) = offsetZ o /\
  Log_error "Offset number format error!" ∈ emitted out.
Proof.
  intros H1 H2 Hparse.
  assert (Hoff : parseOffset (getText (txtX w)) (offsetX o) = None).
  { unfold parseOffset.
    destruct (String.eqb_spec (getText (txtX w)) ""); [done|].
    destruct (String.eqb_spec (getText (txtX w)) "-"); [done|]. by simpl. }
  unfold updateOptions, updateOptions_head. rewrite Hoff.
  destruct (Float_parseFloat _); simpl;
    destruct (getSelectedItem (cboxTexScale w)); simpl;
    unfold updateOptions_tail; simpl;
    try (destruct (parseTextureScale _ _)); simpl;
    repeat split; try reflexivity; set_solver.
Qed.

(** *** The offset controls *)

Lemma updateOptions_offsetType w o :
  offsetType (optionsAfter (updateOptions w o)) =
  if selected rdbtnCenter w then CENTER
  else if selected rdbtnCustom w then CUSTOM else NONE.
Proof.
  destruct (updateOptions_cases w o) as [[_ ->]|(txt & _ & ->)].
  - head_fields.
  - transitivity (offsetType (updateOptions_head w o).1); [tail_fields|head_fields].
Qed.

Lemma shows_offsetType t w o :
  offsetControlsShow t w -> offsetType (optionsAfter (updateOptions w o)) = t.
Proof.
  intros [Hsel _]. rewrite updateOptions_offsetType.
  pose proof (Hsel CENTER) as Hc. pose proof (Hsel CUSTOM) as Hu. simpl in Hc, Hu.
  rewrite Hc, Hu. by destruct t.
Qed.

Lemma shows_same t w w' :
  sameOffsetControls w w' -> offsetControlsShow t w -> offsetControlsShow t w'.
Proof.
  intros (S1 & S2 & S3) (H1 & H2 & H3). split; [|by rewrite S2, S3].
  intros t'. by rewrite S1.
Qed.

Lemma same_updateEnabledSettings w : sameOffsetControls w (updateEnabledSettings w).
Proof.
  destruct (updateEnabledSettings_fields w) as (_ & Hx & Hz & _).
  split; [|by rewrite Hx, Hz]. intros t. apply updateEnabledSettings_selected.
Qed.

Lemma shows_saved s w1 t :
  offsetControlsShow t w1 ->
  let s' := saveSettings (with_window w1 s) in
  offsetControlsShow (offsetType (options s')) (window s').
Proof.
  intros Hshow s'. subst s'.
  destruct (saveSettings_result (with_window w1 s)) as [-> ->]. simpl.
  pose proof (shows_same t _ _ (same_updateEnabledSettings w1) Hshow) as Hshow'.
  by rewrite (shows_offsetType t _ _ Hshow').
Qed.

Lemma shows_radio_click id w :
  inOffsetGroup id = true ->
  exists t, offsetControlsShow t
              (setOffsetFieldsEnabled (bool_decide (id = rdbtnCustom)) (selectRadio id w)).
Proof.
  intros Hid.
  destruct id; try discriminate Hid;
    [exists NONE | exists CENTER | exists CUSTOM];
    (split; [intros []; reflexivity | split; reflexivity]).
Qed.

Lemma same_box_click id v w :
  inOffsetGroup id = false -> sameOffsetControls w (setSelected id v w).
Proof.
  intros Hid. split; [|done].
  intros t. destruct id; try discriminate Hid; by destruct t.
Qed.

(** X19. The offset controls always show the configured offset type: in
    every reachable state exactly one of the three radio buttons is
    selected, it is the one of [Options.offsetType], and the X and Z
    offset fields are enabled exactly when that type is CUSTOM. *)
Theorem offset_controls_in_step (actions : list Action)
    (p : gmap string PrefValue) (o : Options) (worldDirIsNull : bool) :
  let s := run actions (startup p o worldDirIsNull) in
  offsetControlsShow (offsetType (options s)) (window s).
Proof.
  intros s. subst s.
  induction actions as [|a actions IH] using rev_ind.
  - change (run [] (startup p o worldDirIsNull)) with (startup p o worldDirIsNull).
    assert (exists w0 t, window (startup p o worldDirIsNull) = updateEnabledSettings w0 /\
              options (startup p o worldDirIsNull)
              = optionsAfter (updateOptions (updateEnabledSettings w0) o) /\
              offsetControlsShow t w0) as (w0 & t & -> & -> & Hshow).
    { unfold startup, loadSettings.
      match goal with |- context [updateEnabledSettings ?w] => exists w end.
      exists (decodeOffsetType (getInt "OFFSET_TYPE" 0 p)).
      split; [reflexivity|]. split; [reflexivity|].
      unfold decodeOffsetType. set (code := getInt "OFFSET_TYPE" 0 p). clearbody code.
      destruct (Z.eqb_spec code 0) as [->|]; [|destruct (Z.eqb_spec code 1) as [->|];
        [|destruct (Z.eqb_spec code 2) as [->|]]];
        (split; [intros []; reflexivity | split; reflexivity]). }
    pose proof (shows_same t _ _ (same_updateEnabledSettings w0) Hshow) as Hshow'.
    by rewrite (shows_offsetType t _ _ Hshow').
  - rewrite run_snoc. set (s := run actions (startup p o worldDirIsNull)) in *.
    assert (Hkeep : forall w1, sameOffsetControls (window s) w1 ->
              offsetControlsShow (offsetType (options (saveSettings (with_window w1 s))))
                                 (window (saveSettings (with_window w1 s)))).
    { intros w1 Hsame. eapply shows_saved, shows_same; [exact Hsame | exact IH]. }
    destruct a as [id|field text|index|v| | | |]; simpl.
    + destruct (enabled id (window s) && onScreen id); simpl; [|exact IH].
      destruct (inOffsetGroup id) eqn:Hgroup.
      * destruct (shows_radio_click id (window s) Hgroup) as [t Ht].
        by eapply shows_saved.
      * apply Hkeep. by apply same_box_click.
    + destruct field.
      * by apply Hkeep.
      * destruct (fieldEnabled (txtX (window s))) eqn:Hen; [|exact IH].
        apply Hkeep. split; [done|]. by rewrite Hen.
      * destruct (fieldEnabled (txtZ (window s))) eqn:Hen; [|exact IH].
        apply Hkeep. split; [done|]. by rewrite Hen.
    + destruct (items (cboxTexScale (window s)) !! index); [|exact IH]. by apply Hkeep.
    + match goal with |- context [if ?c then _ else _] => destruct c end; [exact IH|].
      by apply Hkeep.
    + destruct (btnForceStop (window s)); [|exact IH].
      unfold forceStop. destruct (exportThread (window s)); exact IH.
    + destruct (btnStartExport (window s)); exact IH.
    + exact IH.
    + destruct (exportThread (window s)); exact IH.
Qed.

(** X20. The offset type survives a restart: the window built from the
    preferences that [saveSettings] stored configures the offset type
    that was configured when the settings were saved. *)
Theorem saved_offsetType_restored (s : System) (o : Options) (worldDirIsNull : bool) :
  offersTexScales (cboxTexScale (window s)) ->
  offsetType (options (startup (prefs (saveSettings s)) o worldDirIsNull))
  = offsetType (options (saveSettings s)).
Proof.
  intros (_ & item & Hsel & _).
  destruct (saveSettings_prefs s item Hsel) as [Ho Hprefs].
  set (w := updateEnabledSettings (window s)) in *.
  set (o' := (updateOptions_tail w item (updateOptions_head w (options s)).1).1) in *.
  pose proof (savedKeys_NoDup) as Hnd. rewrite <- (savedPreferences_keys w o') in Hnd.
  assert (Hcode : getInt "OFFSET_TYPE" 0 (prefs (saveSettings s))
                  = offsetTypeCode (offsetType o')).
  { unfold getInt. rewrite Hprefs.
    by erewrite lookup_foldl_put_in
      by (first [exact Hnd | unfold savedPreferences; in_list]). }
  rewrite Ho. clear Hprefs Hnd Ho.
  set (p' := prefs (saveSettings s)) in *. clearbody p'.
  unfold startup, loadSettings. rewrite Hcode. simpl.
  rewrite updateOptions_offsetType, !updateEnabledSettings_selected.
  by destruct (offsetType o').
Qed.

(** *** Export threads *)

Lemma saveSettings_threads s :
  threads (saveSettings s) = threads s /\
  exportThread (window (saveSettings s)) = exportThread (window s).
Proof.
  destruct (saveSettings_result s) as [-> _].
  destruct (updateEnabledSettings_fields (window s)) as (_ & _ & _ & _ & _ & ->).
  split; [|done]. unfold saveSettings. by destruct (completion _).
Qed.

Lemma olderThreadsInterrupted_same s s' :
  threads s' = threads s -> exportThread (window s') = exportThread (window s) ->
  olderThreadsInterrupted s -> olderThreadsInterrupted s'.
Proof. unfold olderThreadsInterrupted. by intros -> ->. Qed.

Lemma olderThreadsInterrupted_forceStop s :
  olderThreadsInterrupted s -> olderThreadsInterrupted (forceStop s).
Proof.
  unfold olderThreadsInterrupted, forceStop.
  destruct (exportThread (window s)) as [t|] eqn:Ht; simpl; rewrite Ht; [|done].
  intros [Hlen Hold]. unfold interrupt. rewrite length_alter. split; [done|].
  intros u th Hu. rewrite list_lookup_alter_ne by lia. by apply Hold.
Qed.

Lemma olderThreadsInterrupted_runExport s :
  olderThreadsInterrupted s -> olderThreadsInterrupted (runExport s).
Proof.
  unfold olderThreadsInterrupted, runExport.
  destruct (exportThread (window s)) as [t|] eqn:Ht; simpl.
  - intros [Hlen Hold]. unfold interrupt.
    rewrite length_app, !length_alter, Hlen. simpl. split; [lia|].
    intros u th Hu. rewrite lookup_app_l by (rewrite length_alter; lia).
    destruct (decide (u = t)) as [->|Hne].
    + rewrite list_lookup_alter_eq. destruct (threads s !! t); [|done].
      by intros [= <-].
    + rewrite list_lookup_alter_ne by done. apply Hold. lia.
  - intros ->. simpl. split; [done|]. intros u th Hu. lia.
Qed.

(** X21. Only the newest export may still be running: in every reachable
    state the export thread the window refers to is the thread created
    last, and [interrupt()] has been called on every export thread
    created before it; with no export started there is no thread. *)
Theorem older_exports_interrupted (actions : list Action)
    (p : gmap string PrefValue) (o : Options) (worldDirIsNull : bool) :
  olderThreadsInterrupted (run actions (startup p o worldDirIsNull)).
Proof.
  induction actions as [|a actions IH] using rev_ind.
  - change (run [] (startup p o worldDirIsNull)) with (startup p o worldDirIsNull).
    unfold olderThreadsInterrupted.
    assert (exportThread (window (startup p o worldDirIsNull)) = None /\
            threads (startup p o worldDirIsNull) = []) as [-> ->]; [|done].
    unfold startup, loadSettings. simpl. split; [|reflexivity].
    match goal with
    | |- exportThread (updateEnabledSettings ?w) = _ =>
      destruct (updateEnabledSettings_fields w) as (_ & _ & _ & _ & _ & ->)
    end.
    cbn. repeat match goal with |- context [if ?c then _ else _] => destruct c end;
      reflexivity.
  - rewrite run_snoc. set (s := run actions (startup p o worldDirIsNull)) in *.
    assert (Hsave : forall w1, exportThread w1 = exportThread (window s) ->
              olderThreadsInterrupted (saveSettings (with_window w1 s))).
    { intros w1 Hw1. destruct (saveSettings_threads (with_window w1 s)) as [Ht He].
      apply (olderThreadsInterrupted_same s); [exact Ht | by rewrite He | exact IH]. }
    destruct a as [id|field text|index|v| | | |]; simpl.
    + destruct (enabled id (window s) && onScreen id); simpl; [|exact IH].
      destruct (inOffsetGroup id); by apply Hsave.
    + destruct field; [by apply Hsave| |].
      * destruct (fieldEnabled (txtX (window s))); [by apply Hsave|exact IH].
      * destruct (fieldEnabled (txtZ (window s))); [by apply Hsave|exact IH].
    + destruct (items (cboxTexScale (window s)) !! index); [by apply Hsave|exact IH].
    + match goal with |- context [if ?c then _ else _] => destruct c end;
        [exact IH|by apply Hsave].
    + destruct (btnForceStop (window s)); [|exact IH].
      by apply olderThreadsInterrupted_forceStop.
    + destruct (btnStartExport (window s)); [|exact IH].
      by apply olderThreadsInterrupted_runExport.
    + by apply (olderThreadsInterrupted_same s).
    + destruct (exportThread (window s)) eqn:Ht; [|exact IH].
      by apply (olderThreadsInterrupted_same s).
Qed.

(** *** Saving twice *)

Lemma updateOptions_congr w w' o :
  (forall id, toggles w id = toggles w' id) ->
  textFieldMapScale w = textFieldMapScale w' -> txtX w = txtX w' -> txtZ w = txtZ w' ->
  cboxTexScale w = cboxTexScale w' -> spinnerThreads w = spinnerThreads w' ->
  updateOptions w o = updateOptions w' o.
Proof.
  intros Ht H1 H2 H3 H4 H5.
  unfold updateOptions, updateOptions_head, updateOptions_tail, selected, enabled.
  by rewrite H1, H2, H3, H4, H5, !Ht.
Qed.

Lemma tail_again w txt o :
  updateOptions_tail w txt (updateOptions_tail w txt o).1
  = ((updateOptions_tail w txt o).1, (updateOptions_tail w txt o).2).
Proof.
  unfold updateOptions_tail, parseTextureScale.
  destruct (negb (String.eqb txt "")); simpl; [|reflexivity].
  destruct (Double_parseDouble _); reflexivity.
Qed.

Lemma head_after_tail w txt o :
  updateOptions_head w (updateOptions_tail w txt o).1
  = ((updateOptions_tail w txt (updateOptions_head w o).1).1,
     (updateOptions_head w o).2).
Proof.
  unfold updateOptions_head, updateOptions_tail.
  destruct (Float_parseFloat _);
    destruct (parseOffset (getText (txtX w)) (offsetX o)) eqn:Hx;
    destruct (parseOffset (getText (txtZ w)) (offsetZ o)) eqn:Hz; simpl;
    destruct (parseTextureScale txt (textureScale o)) as [ts ev3]; simpl;
    rewrite ?Hx, ?Hz; reflexivity.
Qed.

Lemma head_again w o :
  updateOptions_head w (updateOptions_head w o).1 = updateOptions_head w o.
Proof.
  unfold updateOptions_head, parseOffset.
  destruct (Float_parseFloat _);
    destruct (negb (String.eqb (getText (txtX w)) "") && _);
    destruct (negb (String.eqb (getText (txtZ w)) "") && _);
    try destruct (Integer_parseInt (getText (txtX w)));
    try destruct (Integer_parseInt (getText (txtZ w))); reflexivity.
Qed.

Lemma updateOptions_again w o :
  updateOptions w (optionsAfter (updateOptions w o)) = updateOptions w o.
Proof.
  unfold updateOptions.
  destruct (updateOptions_head w o) as [o1 ev] eqn:Hhead.
  assert (Hh1 : updateOptions_head w o1 = (o1, ev)).
  { pose proof (head_again w o) as H. by rewrite Hhead in H. }
  destruct (getSelectedItem (cboxTexScale w)) as [txt|]; simpl; [|by rewrite Hh1].
  destruct (updateOptions_tail w txt o1) as [o2 ev3] eqn:Htail. simpl.
  assert (Hh2 : updateOptions_head w o2 = (o2, ev)).
  { pose proof (head_after_tail w txt o1) as H. rewrite Hh1 in H.
    cbn [fst snd] in H. by rewrite Htail in H. }
  assert (Ht2 : updateOptions_tail w txt o2 = (o2, ev3)).
  { pose proof (tail_again w txt o1) as H. by rewrite Htail in H. }
  by rewrite Hh2, Ht2.
Qed.

Lemma saveSettings_prefs_form s :
  prefs (saveSettings s) =
  match completion (updateOptions (updateEnabledSettings (window s)) (options s)) with
  | Returned =>
    foldl (fun p kv => put kv p) (prefs s)
          (savedPreferences (updateEnabledSettings (window s)) (options (saveSettings s)))
  | Thrown_NullPointerException => prefs s
  end.
Proof.
  destruct (saveSettings_result s) as [_ ->].
  unfold saveSettings. by destruct (completion _).
Qed.

Lemma foldl_put_twice (l : list (string * PrefValue)) p :
  NoDup l.*1 ->
  foldl (fun p kv => put kv p) (foldl (fun p kv => put kv p) p l) l
  = foldl (fun p kv => put kv p) p l.
Proof.
  intros Hnd. apply map_eq. intros k.
  destruct (decide (k ∈ l.*1)) as [Hin|Hnot].
  - apply list_elem_of_fmap in Hin as ([k' v] & -> & Hin). simpl.
    by rewrite !(lookup_foldl_put_in l _ k' v).
  - by rewrite !lookup_foldl_put_notin.
Qed.

(** X25. Saving again changes nothing: after [saveSettings], a second
    [saveSettings] leaves the options, the stored preferences, every
    check box and radio button, the text fields, the combo box, the
    spinner and the threads as the first one left them (only the log
    grows). *)
Theorem saveSettings_twice (s : System) :
  let s1 := saveSettings s in
  let s2 := saveSettings s1 in
  options s2 = options s1 /\
  prefs s2 = prefs s1 /\
  (forall id, toggles (window s2) id = toggles (window s1) id) /\
  (textFieldMapScale (window s2) = textFieldMapScale (window s1) /\
   txtX (window s2) = txtX (window s1) /\ txtZ (window s2) = txtZ (window s1)) /\
  (cboxTexScale (window s2) = cboxTexScale (window s1) /\
   spinnerThreads (window s2) = spinnerThreads (window s1)) /\
  threads s2 = threads s1.
Proof.
  intros s1 s2.
  destruct (saveSettings_result s) as [Hw1 Ho1]. fold s1 in Hw1, Ho1.
  destruct (saveSettings_result s1) as [Hw2 Ho2]. fold s2 in Hw2, Ho2.
  set (w := updateEnabledSettings (window s)) in *.
  assert (Htog : forall id, toggles (updateEnabledSettings w) id = toggles w id).
  { intros id. by destruct (updateEnabledSettings_frame (window s) id) as (_ & _ & H & _). }
  destruct (updateEnabledSettings_fields w) as (F1 & F2 & F3 & _).
  destruct (updateEnabledSettings_controls w) as (C1 & C2).
  assert (Hsame : updateOptions (updateEnabledSettings w) (options s1)
                  = updateOptions w (options s)).
  { rewrite (updateOptions_congr _ w) by done. rewrite Ho1. apply updateOptions_again. }
  assert (Hopt : options s2 = options s1).
  { rewrite Ho2, Hw1, Hsame. by rewrite Ho1. }
  split; [exact Hopt|]. split.
  - pose proof (saveSettings_prefs_form s1) as P2. fold s2 in P2.
    rewrite Hw1, Hsame, Hopt in P2.
    pose proof (saveSettings_prefs_form s) as P1. fold s1 w in P1.
    destruct (completion (updateOptions w (options s))); [|by rewrite P2].
    assert (savedPreferences (updateEnabledSettings w) (options s1)
            = savedPreferences w (options s1)) as Hlist.
    { unfold savedPreferences. by rewrite !updateEnabledSettings_selected. }
    rewrite Hlist in P2. rewrite P2, P1.
    apply foldl_put_twice. rewrite savedPreferences_keys. apply savedKeys_NoDup.
  - rewrite Hw2, Hw1. split; [exact Htog|].
    split; [by rewrite F1, F2, F3|]. split; [by rewrite C1, C2|].
    unfold s2. by destruct (saveSettings_threads s1) as [-> _].
Qed.

End WindowInvariants.

(** ** Export window: the properties at work *)

Section WindowWitnesses.
Import ExportWindow Statements WindowStatements.

Lemma scale16Merged_offers : offersTexScales (cboxTexScale (window scale16Merged)).
Proof.
  split; [vm_compute; reflexivity|].
  exists "16x". split; [vm_compute; reflexivity | unfold texScaleChoices; in_list].
Qed.

Lemma saveSettings_thirty_keys_witness :
  (("OBJ_PER_BLOCK_OCCL" ∉ savedKeys) /\
   prefs (saveSettings scale16Merged) !! "OBJ_PER_BLOCK_OCCL"
   = prefs scale16Merged !! "OBJ_PER_BLOCK_OCCL") /\
  (is_Some (getSelectedItem (cboxTexScale (window scale16Merged))) /\
   "EXPORT_THREADS" ∈ savedKeys /\
   is_Some (prefs (saveSettings scale16Merged) !! "EXPORT_THREADS")).
Proof.
  split.
  - assert (H : "OBJ_PER_BLOCK_OCCL" ∉ savedKeys).
    { apply (bool_decide_unpack (_ ∉ savedKeys)). vm_compute. exact I. }
    split; [exact H|].
    destruct (saveSettings_thirty_keys scale16Merged "OBJ_PER_BLOCK_OCCL") as [Hk _].
    exact (Hk H).
  - assert (Hsel : is_Some (getSelectedItem (cboxTexScale (window scale16Merged))))
      by (exists "16x"; vm_compute; reflexivity).
    assert (Hin : "EXPORT_THREADS" ∈ savedKeys).
    { apply (bool_decide_unpack (_ ∈ savedKeys)). vm_compute. exact I. }
    split; [exact Hsel|]. split; [exact Hin|].
    destruct (saveSettings_thirty_keys scale16Merged "EXPORT_THREADS")
      as (_ & Hw & _).
    destruct (Hw Hsel Hin) as (v & _ & Hv). by exists v.
Defined.

Example saved_thread_count :
  prefs (saveSettings scale16Merged) !! "EXPORT_THREADS" = Some (PInt 8).
Proof. vm_compute. reflexivity. Qed.

Lemma saved_boxes_restored_witness :
  chckbxMergeVerticies ∈ restoredBoxes /\
  selected chckbxMergeVerticies
    (window (startup (prefs (saveSettings scale16Merged)) Decimal.initialOptions false))
  = selected chckbxMergeVerticies (window scale16Merged).
Proof.
  assert (H : chckbxMergeVerticies ∈ restoredBoxes) by (unfold restoredBoxes; in_list).
  split; [exact H|].
  exact (saved_boxes_restored scale16Merged Decimal.initialOptions false
           chckbxMergeVerticies scale16Merged_offers H).
Defined.

Lemma saved_threads_restored_witness :
  getValue (spinnerThreads
    (window (startup (prefs (saveSettings scale16Merged)) Decimal.initialOptions false)))
  = getValue (spinnerThreads (window scale16Merged)).
Proof.
  destruct (saved_threads_restored scale16Merged Decimal.initialOptions false
              scale16Merged_offers) as [H _].
  exact H.
Defined.

Lemma saved_offsetType_restored_witness :
  offsetType (options (startup (prefs (saveSettings badXOffset))
                               Decimal.initialOptions false))
  = offsetType (options (saveSettings badXOffset)).
Proof.
  apply (saved_offsetType_restored badXOffset Decimal.initialOptions false).
  split; [vm_compute; reflexivity|].
  exists "1x". split; [vm_compute; reflexivity | unfold texScaleChoices; in_list].
Defined.

Example restart_after_16x :
  let restarted :=
    startup (prefs scale16Merged) Decimal.initialOptions false in
  textureScale (options scale16Merged) = 16 /\
  getSelectedItem (cboxTexScale (window restarted)) = Some "1x" /\
  textureScale (options restarted) = 1 /\
  removeDuplicates (options restarted) = true.
Proof. vm_compute. repeat split. Qed.

Lemma texture_scale_not_restored_witness :
  (Double_toString (getDouble "TEXTURE_SCALE_ID" (Double_ofZ 1) (prefs scale16Merged))
    ∉ texScaleChoices) /\
  getSelectedItem
    (cboxTexScale (window (startup (prefs scale16Merged) Decimal.initialOptions false)))
  = Some "1x".
Proof.
  assert (H : @Double_toString Decimal.jdk
                (getDouble "TEXTURE_SCALE_ID" (Double_ofZ 1) (prefs scale16Merged))
              ∉ texScaleChoices).
  { apply (bool_decide_unpack (_ ∉ texScaleChoices)). vm_compute. exact I. }
  split; [exact H|].
  exact (texture_scale_not_restored (prefs scale16Merged) Decimal.initialOptions false H).
Defined.

Lemma malformed_x_offset_witness :
  getText (txtX (window badXOffset)) = "abc" /\
  getText (txtZ (window badXOffset)) = "5" /\
  offsetX (optionsAfter (updateOptions (window badXOffset) Decimal.initialOptions)) = 0 /\
  offsetZ (optionsAfter (updateOptions (window badXOffset) Decimal.initialOptions)) = 0.
Proof.
  split; [vm_compute; reflexivity|]. split; [vm_compute; reflexivity|].
  destruct (malformed_x_offset (window badXOffset) Decimal.initialOptions)
    as (H1 & H2 & _); [vm_compute; discriminate..|vm_compute; reflexivity|].
  split; [exact H1 | exact H2].
Defined.

Example threeExports_threads :
  exportThread (window threeExports) = Some 2%nat /\
  interruptCalled <$> threads threeExports = [true; true; false].
Proof. vm_compute. split; reflexivity. Qed.

Lemma reachable_threads_in_range_witness :
  @storedThreadsInRange Decimal.jdk ∅ /\
  spinnerWithinBounds
    (spinnerThreads
       (window (run [CommitThreads 600; CommitThreads 512] Decimal.firstStart))) /\
  threadsInRange (run [CommitThreads 600; CommitThreads 512] Decimal.firstStart).
Proof.
  assert (H : @storedThreadsInRange Decimal.jdk ∅)
    by (unfold storedThreadsInRange; vm_compute; split; discriminate).
  split; [exact H|].
  exact (reachable_threads_in_range (J := Decimal.jdk)
           [CommitThreads 600; CommitThreads 512] ∅ Decimal.initialOptions false H).
Defined.

Example commit_threads :
  exportThreads (options (run [CommitThreads 600; CommitThreads 512] Decimal.firstStart))
  = 512 /\
  exportThreads (options (run [CommitThreads 600] Decimal.firstStart)) = 8.
Proof. vm_compute. split; reflexivity. Qed.

End WindowWitnesses.

(** ** Remembered paths and the console progress bar *)

Section PathsAndProgress.
Import SettingsPaths ConsoleProgress.


Lemma advance_S rounds n out :
  advance (S rounds) (mkBar n out)
  = advance rounds
      (mkBar (n + 1)
             (if n + 1 =? SIZE then (out ++ [print "."]) ++ [println "]"]
              else out ++ [print "."])).
Proof. reflexivity. Qed.

Lemma advance_dots rounds n out :
  0 <= n -> n + Z.of_nat rounds < SIZE ->
  advance rounds (mkBar n out)
  = mkBar (n + Z.of_nat rounds) (out ++ replicate rounds (print ".")).
Proof.
  revert n out. induction rounds as [|rounds IH]; intros n out Hn Hlt.
  - simpl. by rewrite Z.add_0_r, app_nil_r.
  - rewrite advance_S.
    destruct (Z.eqb_spec (n + 1) SIZE) as [He|_]; [lia|].
    rewrite IH by lia. f_equal; [lia|].
    by rewrite <- app_assoc.
Qed.

Lemma advance_to_full rounds n out :
  0 <= n -> n + Z.of_nat (S rounds) = SIZE ->
  advance (S rounds) (mkBar n out)
  = mkBar SIZE (out ++ replicate (S rounds) (print ".") ++ [println "]"]).
Proof.
  revert n out. induction rounds as [|rounds IH]; intros n out Hn Hlt.
  - rewrite advance_S.
    destruct (Z.eqb_spec (n + 1) SIZE) as [He|Hne]; [|lia].
    simpl. rewrite He. by rewrite <- app_assoc.
  - rewrite advance_S.
    destruct (Z.eqb_spec (n + 1) SIZE) as [He|_]; [lia|].
    rewrite (IH (n + 1)) by lia. f_equal.
    rewrite <- app_assoc. reflexivity.
Qed.

Lemma render_extend n m :
  0 <= n -> n <= m -> n < SIZE ->
  (print "[" :: replicate (Z.to_nat n) (print "."))
    ++ replicate (Z.to_nat (m - n)) (print ".")
    ++ (if m =? SIZE then [println "]"] else [])
  = render m.
Proof.
  intros Hn Hm Hlt. unfold render.
  replace (Z.to_nat m) with (Z.to_nat n + Z.to_nat (m - n))%nat by lia.
  rewrite replicate_add, <- !app_assoc. reflexivity.
Qed.

Lemma setProgress_from n v :
  0 <= n <= SIZE -> n <= v ->
  setProgress v (mkBar n (render n)) = mkBar (Z.min v SIZE) (render (Z.min v SIZE)).
Proof.
  intros Hn Hv. unfold setProgress. cbn [last printed].
  set (curr := Z.min v SIZE).
  assert (Hc : n <= curr <= SIZE) by (unfold curr; lia).
  destruct (Z.ltb_spec curr n); [lia|]. cbn [last printed].
  destruct (decide (curr = n)) as [->|Hne].
  { by rewrite Z.sub_diag. }
  rewrite <- (render_extend n curr) by lia.
  destruct (Z.to_nat (curr - n)) as [|rounds] eqn:Hr; [lia|].
  unfold render. destruct (Z.eqb_spec n SIZE); [lia|]. rewrite app_nil_r.
  destruct (Z.eqb_spec curr SIZE) as [Hfull|Hnot].
  - rewrite advance_to_full by lia. by rewrite Hfull.
  - rewrite advance_dots by lia. rewrite app_nil_r. f_equal. lia.
Qed.

Lemma setProgress_first v :
  0 <= v ->
  setProgress v initial = mkBar (Z.min v SIZE) (render (Z.min v SIZE)).
Proof.
  intros Hv. assert (HS : SIZE = 78) by reflexivity.
  assert (HM : Integer_MAX_VALUE = 2147483647) by reflexivity.
  unfold setProgress, initial. cbn [last printed].
  destruct (Z.ltb_spec (Z.min v SIZE) Integer_MAX_VALUE) as [_|H]; [|lia].
  change (mkBar 0 ([] ++ [print "["])) with (mkBar 0 (render 0)).
  pose proof (setProgress_from 0 v) as H. unfold setProgress in H.
  cbn [last printed] in H.
  destruct (Z.ltb_spec (Z.min v SIZE) 0); [lia|].
  apply H; lia.
Qed.

Lemma last_cons_default (x : Z) l d d' : List.last (x :: l) d = List.last (x :: l) d'.
Proof. revert x. induction l as [|y l IH]; intros x; [done|]. apply (IH y). Qed.

Lemma progress_run n values :
  0 <= n -> nondecreasing n values ->
  foldl (fun bar v => setProgress v bar)
        (mkBar (Z.min n SIZE) (render (Z.min n SIZE))) values
  = let m := Z.min (List.last values n) SIZE in mkBar m (render m).
Proof.
  assert (HS : SIZE = 78) by reflexivity.
  revert n. induction values as [|v values IH]; intros n Hn Hnd; [done|].
  destruct Hnd as [Hv Hnd]. cbn [foldl].
  rewrite setProgress_from by lia.
  rewrite (IH v) by first [lia | exact Hnd].
  destruct values as [|z values]; [reflexivity|].
  cbv zeta. by rewrite (last_cons_default z values v n).
Qed.

(** X23. The console progress bar shows the progress reached: for a run
    of progress values that start at 0 or above and never go back,
    everything printed is one opening bracket followed by as many dots as
    the last value (at most 78), and the closing bracket with its line
    end exactly when 78 is reached; [last] is that number of dots. *)
Theorem console_bar (v : Z) (values : list Z) :
  nondecreasing 0 (v :: values) ->
  foldl (fun bar v => setProgress v bar) initial (v :: values)
  = let m := Z.min (List.last (v :: values) v) SIZE in mkBar m (render m).
Proof.
  intros [Hv Hnd]. cbn [foldl]. rewrite setProgress_first by done.
  rewrite (progress_run v values Hv Hnd).
  destruct values; reflexivity.
Qed.

Lemma console_bar_witness :
  nondecreasing 0 [0; 3; 3; 78; 90] /\
  foldl (fun bar v => setProgress v bar) initial [0; 3; 3; 78; 90]
  = mkBar 78 (render 78).
Proof.
  assert (H : nondecreasing 0 [0; 3; 3; 78; 90]) by (simpl; lia).
  split; [exact H|]. exact (console_bar 0 [3; 3; 78; 90] H).
Defined.

End PathsAndProgress.
